(** * Conway's Game of Life (cgol/game.py): the simulation core

    A shallow embedding of the class [GameOfLife] of [cgol/game.py]: the
    toroidal grid, the neighbour count, the transition rule and the
    start / pause / end controls, followed by the properties the
    specification states about them.

    Python integers are unbounded, so they are [Z].  A Python list is a
    [list]; indexing follows Python (a negative index counts from the end,
    an index out of range raises [IndexError]).  Methods of the class run
    in a small state-and-exception monad whose state is the object [self].

    Every row of [self.grid] is built by a list comprehension
    ([make_clear_grid], [apply_rules]) and is never shared between two
    rows or two grids, so the nested list is held by value. *)

From stdpp Require Import base numbers list strings.
From Stdlib Require Import ZArith Lia.

Local Open Scope Z_scope.

(** ** Exceptions and results *)

Inductive exn : Type :=
  | IndexError
  | ZeroDivisionError
  | PygameError.

Inductive result (A : Type) : Type :=
  | Ok (a : A)
  | Raise (e : exn).

Arguments Ok {A} a.
Arguments Raise {A} e.

(** ** The object *)

(** [pygame.Rect(left, top, width, height)]. *)
Record Rect : Type := mkRect {
  rect_x : Z;
  rect_y : Z;
  rect_w : Z;
  rect_h : Z
}.

(** The attributes of [self] that the simulation reads or writes.  The
    window surface and the font are handles of the graphics library and
    carry no simulation state. *)
Record GameOfLife : Type := mkGame {
  grid_size : Z;
  cell_size : Z;
  width : Z;
  height : Z;
  grid : list (list Z);
  window_alive : bool;
  is_running : bool;
  buttons : list (string * Rect)
}.

Definition with_grid (g : list (list Z)) (self : GameOfLife) : GameOfLife :=
  mkGame (grid_size self) (cell_size self) (width self) (height self)
         g (window_alive self) (is_running self) (buttons self).

Definition with_window_alive (b : bool) (self : GameOfLife) : GameOfLife :=
  mkGame (grid_size self) (cell_size self) (width self) (height self)
         (grid self) b (is_running self) (buttons self).

Definition with_is_running (b : bool) (self : GameOfLife) : GameOfLife :=
  mkGame (grid_size self) (cell_size self) (width self) (height self)
         (grid self) (window_alive self) b (buttons self).

Definition with_buttons (bs : list (string * Rect)) (self : GameOfLife)
  : GameOfLife :=
  mkGame (grid_size self) (cell_size self) (width self) (height self)
         (grid self) (window_alive self) (is_running self) bs.

(** ** The monad of methods *)

Definition M (A : Type) : Type := GameOfLife -> result (A * GameOfLife).

Definition ret {A : Type} (a : A) : M A := fun self => Ok (a, self).

Definition bind {A B : Type} (m : M A) (k : A -> M B) : M B :=
  fun self =>
    match m self with
    | Ok (a, self') => k a self'
    | Raise e => Raise e
    end.

Definition raise {A : Type} (e : exn) : M A := fun _ => Raise e.

Definition gets {A : Type} (f : GameOfLife -> A) : M A :=
  fun self => Ok (f self, self).

Definition modify (f : GameOfLife -> GameOfLife) : M unit :=
  fun self => Ok (tt, f self).

Declare Scope py_scope.
Delimit Scope py_scope with py.

Notation "x <- m ;; k" := (bind m (fun x => k))
  (at level 100, m at next level, right associativity) : py_scope.
Notation "m ;;; k" := (bind m (fun _ => k))
  (at level 100, right associativity) : py_scope.

Local Open Scope py_scope.

(** [for x in l: s = body(x, s)]: a loop that updates local variables [s]. *)
Fixpoint for_each {A S : Type} (l : list A) (body : A -> S -> M S) (s : S)
  : M S :=
  match l with
  | [] => ret s
  | x :: l' => s' <- body x s ;; for_each l' body s'
  end.

(** ** Python primitives *)

(** [a % b]: the remainder has the sign of the divisor, as [Z.modulo]. *)
Definition py_mod (a b : Z) : M Z :=
  if b =? 0 then raise ZeroDivisionError else ret (a mod b).

(** [a // b]: floor division, as [Z.div]. *)
Definition py_floordiv (a b : Z) : M Z :=
  if b =? 0 then raise ZeroDivisionError else ret (a / b).

(** The position a list index denotes: [l[i]] for [0 <= i < len(l)],
    [l[len(l) + i]] for [-len(l) <= i < 0], nothing otherwise. *)
Definition py_index {A : Type} (l : list A) (i : Z) : option nat :=
  let n := Z.of_nat (length l) in
  if (0 <=? i) && (i <? n) then Some (Z.to_nat i)
  else if (- n <=? i) && (i <? 0) then Some (Z.to_nat (i + n))
  else None.

(** [l[i]] *)
Definition py_getitem {A : Type} (l : list A) (i : Z) : M A :=
  match py_index l i with
  | Some k =>
      match l !! k with
      | Some x => ret x
      | None => raise IndexError
      end
  | None => raise IndexError
  end.

(** [l[i] = x], giving the list after the store. *)
Definition py_setitem {A : Type} (l : list A) (i : Z) (x : A) : M (list A) :=
  match py_index l i with
  | Some k => ret (<[k := x]> l)
  | None => raise IndexError
  end.

(** [range(n)] *)
Definition py_range (n : Z) : list Z := seqZ 0 n.

(** ** Class constants *)

Definition DIRECTIONS : list (Z * Z) :=
  [ (-1, -1); (-1, 0); (-1, 1);
    (0, -1); (0, 1);
    (1, -1); (1, 0); (1, 1) ].

Definition TOOLBAR_HEIGHT : Z := 30.
Definition BUTTON_HEIGHT : Z := 25.
Definition BUTTON_WIDTH : Z := 80.
Definition BUTTON_HEIGHT_PADDING : Z := 5.
Definition BUTTON_WIDTH_PADDING : Z := 10.

(** ** The graphics library, as far as the simulation depends on it *)

(** The largest value of a C [int]. *)
Definition C_INT_MAX : Z := 2147483647.

(** [pygame.display.set_mode((w, h))] refuses a negative dimension and a
    dimension that does not fit a C [int], with [pygame.error]; a
    dimension of 0 stands for the size of the screen and is accepted.
    What else the window system may refuse, such as a window larger than
    it can create, is not modelled: below, the constructor is said to
    return only at sizes named in the statement, and otherwise the
    objects it returns are spoken of. *)
Definition display_set_mode (w h : Z) : result unit :=
  if (w <? 0) || (h <? 0) || (C_INT_MAX <? w) || (C_INT_MAX <? h)
  then Raise PygameError else Ok tt.

(** [rect.collidepoint(x, y)]: the right and bottom edges are outside. *)
Definition collidepoint (r : Rect) (x y : Z) : bool :=
  (rect_x r <=? x) && (x <? rect_x r + rect_w r) &&
  (rect_y r <=? y) && (y <? rect_y r + rect_h r).

(** ** Methods *)

Definition initialize_buttons : M (list (string * Rect)) :=
  ret [ ("Start"%string,
          mkRect BUTTON_WIDTH_PADDING BUTTON_HEIGHT_PADDING
                 BUTTON_WIDTH BUTTON_HEIGHT);
        ("Pause"%string,
          mkRect (2 * BUTTON_WIDTH_PADDING + BUTTON_WIDTH)
                 BUTTON_HEIGHT_PADDING BUTTON_WIDTH BUTTON_HEIGHT);
        ("End"%string,
          mkRect (3 * BUTTON_WIDTH_PADDING + 2 * BUTTON_WIDTH)
                 BUTTON_HEIGHT_PADDING BUTTON_WIDTH BUTTON_HEIGHT) ].

(** [[[0 for _ in range(self.grid_size)] for _ in range(self.grid_size)]] *)
Definition make_clear_grid : M (list (list Z)) :=
  n <- gets grid_size ;;
  ret ((fun _ => (fun _ => 0) <$> py_range n) <$> py_range n).

Definition initialize_grid : M (list (list Z)) := make_clear_grid.

Definition start_simulation : M unit := modify (with_is_running true).

Definition pause_simulation : M unit := modify (with_is_running false).

Definition end_simulation : M unit :=
  g <- make_clear_grid ;;
  modify (with_grid g) ;;;
  modify (with_is_running false).

(** [0 <= row < self.grid_size and 0 <= col < self.grid_size] *)
Definition in_grid (n row col : Z) : bool :=
  (0 <=? row) && (row <? n) && ((0 <=? col) && (col <? n)).

(** The right-hand side [1 - self.grid[row][col]] is evaluated first, then
    the store goes through [self.grid[row]]. *)
Definition handle_grid_click (x y : Z) : M unit :=
  cs <- gets cell_size ;;
  row <- py_floordiv (y - TOOLBAR_HEIGHT) cs ;;
  col <- py_floordiv x cs ;;
  n <- gets grid_size ;;
  if in_grid n row col then
    g <- gets grid ;;
    r <- py_getitem g row ;;
    v <- py_getitem r col ;;
    r' <- py_setitem r col (1 - v) ;;
    g' <- py_setitem g row r' ;;
    modify (with_grid g')
  else ret tt.

(** The loop over [self.buttons.items()] returns at the first button hit.
    [flash_button] only draws and sleeps. *)
Fixpoint toolbar_loop (bs : list (string * Rect)) (x y : Z) : M unit :=
  match bs with
  | [] => ret tt
  | (text, rect) :: bs' =>
      if collidepoint rect x y then
        if String.eqb text "Start" then start_simulation
        else if String.eqb text "Pause" then pause_simulation
        else if String.eqb text "End" then end_simulation
        else ret tt
      else toolbar_loop bs' x y
  end.

Definition handle_toolbar_click (x y : Z) : M unit :=
  bs <- gets buttons ;;
  toolbar_loop bs x y.

(** [pygame_event.pos] is the pair [(x, y)]. *)
Definition handle_mouse_click (pos : Z * Z) : M unit :=
  let '(x, y) := pos in
  if y <? TOOLBAR_HEIGHT then handle_toolbar_click x y
  else handle_grid_click x y.

Definition count_neighbors (row col : Z) : M Z :=
  for_each DIRECTIONS
    (fun '(dr, dc) count =>
       n <- gets grid_size ;;
       r <- py_mod (row + dr) n ;;
       n' <- gets grid_size ;;
       c <- py_mod (col + dc) n' ;;
       g <- gets grid ;;
       gr <- py_getitem g r ;;
       v <- py_getitem gr c ;;
       ret (count + v))
    0.

(** [new_grid[row][col] = v] on the local list [new_grid]. *)
Definition store_cell (new_grid : list (list Z)) (row col v : Z)
  : M (list (list Z)) :=
  r <- py_getitem new_grid row ;;
  r' <- py_setitem r col v ;;
  py_setitem new_grid row r'.

Definition apply_rules : M (list (list Z)) :=
  n <- gets grid_size ;;
  let new_grid := (fun _ => (fun _ => 0) <$> py_range n) <$> py_range n in
  n1 <- gets grid_size ;;
  for_each (py_range n1)
    (fun row new_grid =>
       n2 <- gets grid_size ;;
       for_each (py_range n2)
         (fun col new_grid =>
            neighbors <- count_neighbors row col ;;
            g <- gets grid ;;
            gr <- py_getitem g row ;;
            cell <- py_getitem gr col ;;
            if (cell =? 1) && ((neighbors <? 2) || (neighbors >? 3)) then
              store_cell new_grid row col 0
            else if (cell =? 0) && (neighbors =? 3) then
              store_cell new_grid row col 1
            else
              store_cell new_grid row col cell)
         new_grid)
    new_grid.

Definition update_grid : M unit :=
  g <- apply_rules ;;
  modify (with_grid g).

(** Events of [pygame.event.get()]. *)
Inductive event : Type :=
  | QUIT
  | MOUSEBUTTONDOWN (pos : Z * Z)
  | OTHER.

Definition handle_event (ev : event) : M unit :=
  match ev with
  | QUIT => modify (with_window_alive false)
  | MOUSEBUTTONDOWN pos => handle_mouse_click pos
  | OTHER => ret tt
  end.

(** [if self.is_running: self.update_grid()], the step [run] takes once
    per frame. *)
Definition tick : M unit :=
  running <- gets is_running ;;
  if running then update_grid else ret tt.

(** One iteration of the body of [while self.window_alive] in [run]; the
    drawing calls do not touch [self]. *)
Definition run_frame (events : list event) : M unit :=
  for_each events (fun ev _ => handle_event ev) tt ;;;
  tick.

(** [run], fed with the event batches of successive frames. *)
Fixpoint run (frames : list (list event)) : M unit :=
  match frames with
  | [] => ret tt
  | events :: frames' =>
      alive <- gets window_alive ;;
      if alive then run_frame events ;;; run frames' else ret tt
  end.

(** [GameOfLife(grid_size, cell_size)]: the constructor. *)
Definition init (grid_size cell_size : Z) : result GameOfLife :=
  let width := grid_size * cell_size in
  let height := grid_size * cell_size + TOOLBAR_HEIGHT in
  match display_set_mode width height with
  | Raise e => Raise e
  | Ok _ =>
      let self := mkGame grid_size cell_size width height [] false false [] in
      match
        (g <- initialize_grid ;;
         modify (with_grid g) ;;;
         modify (with_window_alive true) ;;;
         modify (with_is_running false) ;;;
         bs <- initialize_buttons ;;
         modify (with_buttons bs)) self
      with
      | Ok (_, self') => Ok self'
      | Raise e => Raise e
      end
  end.

(** ** Vocabulary of the specification *)

Definition DEAD : Z := 0.
Definition ALIVE : Z := 1.

(** The cell at [(i, j)] of a grid, for indices inside it. *)
Definition cell_at (g : list (list Z)) (i j : Z) : Z :=
  default 0 (g !! Z.to_nat i ≫= fun r => r !! Z.to_nat j).

(** The grid is an [n] by [n] matrix. *)
Definition shape (n : Z) (g : list (list Z)) : Prop :=
  Z.of_nat (length g) = n ∧ Forall (fun r => Z.of_nat (length r) = n) g.

(** Every cell is DEAD or ALIVE. *)
Definition binary (g : list (list Z)) : Prop :=
  Forall (Forall (fun v => v = DEAD ∨ v = ALIVE)) g.

Definition grid_inv (n : Z) (g : list (list Z)) : Prop :=
  shape n g ∧ binary g.

(** The object's grid matches its own [grid_size]. *)
Definition shaped (self : GameOfLife) : Prop :=
  shape (grid_size self) (grid self).

Definition well_formed (self : GameOfLife) : Prop :=
  grid_inv (grid_size self) (grid self).

(** The cells at the eight Moore offsets of [(row, col)], indices wrapped
    modulo [n]. *)
Definition neighbor_cells (n : Z) (g : list (list Z)) (row col : Z) : list Z :=
  (fun '(dr, dc) => cell_at g ((row + dr) mod n) ((col + dc) mod n))
    <$> DIRECTIONS.

(** How many of them are ALIVE. *)
Definition alive_neighbors (n : Z) (g : list (list Z)) (row col : Z) : Z :=
  Z.of_nat (length (filter (fun v => v = ALIVE) (neighbor_cells n g row col))).

(** Their sum, which is what the loop of [count_neighbors] accumulates. *)
Definition neighbor_sum (n : Z) (g : list (list Z)) (row col : Z) : Z :=
  foldl Z.add 0 (neighbor_cells n g row col).

(** The transition rule on one cell. *)
Definition rule (cell neighbors : Z) : Z :=
  if (cell =? 1) && ((neighbors <? 2) || (neighbors >? 3)) then 0
  else if (cell =? 0) && (neighbors =? 3) then 1
  else cell.

(** The value [apply_rules] stores at [(row, col)]. *)
Definition next_cell (self : GameOfLife) (row col : Z) : Z :=
  rule (cell_at (grid self) row col)
       (neighbor_sum (grid_size self) (grid self) row col).

(** An [n] by [n] grid given by its cells. *)
Definition tabulate (n : Z) (f : Z -> Z -> Z) : list (list Z) :=
  (fun i => f i <$> py_range n) <$> py_range n.

(** The next generation, every cell from the grid [g]. *)
Definition next_generation (n : Z) (g : list (list Z)) : list (list Z) :=
  tabulate n (fun i j => rule (cell_at g i j) (neighbor_sum n g i j)).

(** The grid with the cell [(i, j)] replaced by [v]. *)
Definition set_cell (g : list (list Z)) (i j v : Z) : list (list Z) :=
  alter (fun r => <[Z.to_nat j := v]> r) (Z.to_nat i) g.

(** The cell a click at pixel [(x, y)] lands on. *)
Definition click_row (self : GameOfLife) (y : Z) : Z :=
  (y - TOOLBAR_HEIGHT) / cell_size self.
Definition click_col (self : GameOfLife) (x : Z) : Z :=
  x / cell_size self.

(** Blinker: three cells in a row, and three cells in a column. *)
Definition blinker_h (n r c : Z) : list (list Z) :=
  tabulate n (fun i j =>
    if (i =? r) && ((c - 1 <=? j) && (j <=? c + 1)) then 1 else 0).

Definition blinker_v (n r c : Z) : list (list Z) :=
  tabulate n (fun i j =>
    if (j =? c) && ((r - 1 <=? i) && (i <=? r + 1)) then 1 else 0).

#[global] Instance shape_dec n g : Decision (shape n g).
Proof. unfold shape. apply _. Defined.

#[global] Instance binary_dec g : Decision (binary g).
Proof. unfold binary. apply _. Defined.

#[global] Instance grid_inv_dec n g : Decision (grid_inv n g).
Proof. unfold grid_inv. apply _. Defined.

#[global] Instance shaped_dec self : Decision (shaped self).
Proof. unfold shaped. apply _. Defined.

#[global] Instance well_formed_dec self : Decision (well_formed self).
Proof. unfold well_formed. apply _. Defined.

(** A method keeps the grid invariant: run on an object whose grid is an
    N x N matrix of DEAD and ALIVE cells and which satisfies [P], it
    returns, and the object it leaves has the same dimension, a grid
    that is again such a matrix, and satisfies [P]. *)
Definition preserves_under (P : GameOfLife -> Prop) (m : M unit) : Prop :=
  forall self, well_formed self -> P self ->
    exists self',
      m self = Ok (tt, self') ∧
      grid_size self' = grid_size self ∧
      well_formed self' ∧
      P self'.

Definition preserves (m : M unit) : Prop := preserves_under (fun _ => True) m.

(** [P] does not depend on the grid, the running flag or the window
    flag. *)
Definition stable (P : GameOfLife -> Prop) : Prop :=
  forall self, P self ->
    (forall g, P (with_grid g self)) ∧
    (forall b, P (with_is_running b self)) ∧
    (forall b, P (with_window_alive b self)).

(** Pixel coordinates can be mapped to cells: [cell_size] is not 0. *)
Definition clickable (self : GameOfLife) : Prop := cell_size self <> 0.

(** A 5 x 5 object with a glider, running. *)
Definition glider_game : GameOfLife :=
  mkGame 5 15 75 105
    [ [0; 1; 0; 0; 0];
      [0; 0; 1; 0; 0];
      [1; 1; 1; 0; 0];
      [0; 0; 0; 0; 0];
      [0; 0; 0; 0; 0] ]
    true true [].

(** A 6 x 6 object with a horizontal blinker, stopped. *)
Definition blinker_game : GameOfLife :=
  mkGame 6 15 90 120 (blinker_h 6 2 3) true false [].

(** ** Drawing the grid *)

Definition color : Type := Z * Z * Z.

Definition WHITE : color := (255, 255, 255).
Definition BLUE : color := (0, 0, 255).

Definition FILL_PADDING : Z := 1.

(** The calls [draw_grid] makes on the window surface. *)
Inductive draw_cmd : Type :=
  | ScreenFill (c : color) (r : Rect)
      (** [self.screen.fill(c, r)] *)
  | DrawRect (c : color) (r : Rect) (line : Z)
      (** [pygame.draw.rect(self.screen, c, r, line)]; [line = 0], the
          default, fills the rectangle, a positive [line] draws its
          border. *).

(** [draw_grid], giving the calls made on the surface, in order. *)
Definition draw_grid : M (list draw_cmd) :=
  w <- gets width ;;
  h <- gets height ;;
  let screen := [ScreenFill BLUE (mkRect 0 TOOLBAR_HEIGHT w h)] in
  n <- gets grid_size ;;
  for_each (py_range n)
    (fun row screen =>
       n2 <- gets grid_size ;;
       for_each (py_range n2)
         (fun col screen =>
            cs <- gets cell_size ;;
            let rect :=
              mkRect (col * cs + FILL_PADDING)
                     (row * cs + FILL_PADDING + TOOLBAR_HEIGHT)
                     (cs - FILL_PADDING)
                     (cs - FILL_PADDING) in
            g <- gets grid ;;
            gr <- py_getitem g row ;;
            v <- py_getitem gr col ;;
            let screen :=
              if v =? 1 then screen ++ [DrawRect WHITE rect 0] else screen in
            ret (screen ++ [DrawRect WHITE rect 1]))
         screen)
    screen.

(** The program: [game = GameOfLife(grid_size=50, cell_size=15)] and
    [game.run()], fed with the event batches of successive frames. *)
Definition GRID_SIZE : Z := 50.
Definition CELL_SIZE : Z := 15.

Definition main (frames : list (list event)) : result GameOfLife :=
  match init GRID_SIZE CELL_SIZE with
  | Raise e => Raise e
  | Ok game =>
      match run frames game with
      | Ok (_, game') => Ok game'
      | Raise e => Raise e
      end
  end.

(** ** More vocabulary *)

(** The rectangle [draw_grid] uses for the cell [(row, col)]. *)
Definition cell_rect (self : GameOfLife) (row col : Z) : Rect :=
  mkRect (col * cell_size self + FILL_PADDING)
         (row * cell_size self + FILL_PADDING + TOOLBAR_HEIGHT)
         (cell_size self - FILL_PADDING)
         (cell_size self - FILL_PADDING).

(** What is drawn for one cell: the filled square of an ALIVE cell, then
    the border. *)
Definition cell_cmds (self : GameOfLife) (row col : Z) : list draw_cmd :=
  (if cell_at (grid self) row col =? 1
   then [DrawRect WHITE (cell_rect self row col) 0] else [])
  ++ [DrawRect WHITE (cell_rect self row col) 1].

(** What is drawn for the whole grid, row by row. *)
Definition grid_cmds (self : GameOfLife) : list draw_cmd :=
  ScreenFill BLUE (mkRect 0 TOOLBAR_HEIGHT (width self) (height self))
  :: (py_range (grid_size self) ≫= fun row =>
      py_range (grid_size self) ≫= fun col =>
      cell_cmds self row col).

(** The attributes no method assigns after construction stay as they
    are, and a closed window stays closed. *)
Definition same_config (self self' : GameOfLife) : Prop :=
  grid_size self' = grid_size self ∧
  cell_size self' = cell_size self ∧
  width self' = width self ∧
  height self' = height self ∧
  buttons self' = buttons self ∧
  (window_alive self = false -> window_alive self' = false).

Definition keeps_config {A : Type} (m : M A) : Prop :=
  forall self a self', m self = Ok (a, self') -> same_config self self'.

(** The grid moved on the torus: the cell [(i, j)] of the result is the
    cell [(i + di, j + dj)] of [g], indices modulo [n]. *)
Definition shift (n : Z) (g : list (list Z)) (di dj : Z) : list (list Z) :=
  tabulate n (fun i j => cell_at g ((i + di) mod n) ((j + dj) mod n)).

(** Rows and columns exchanged. *)
Definition transpose (n : Z) (g : list (list Z)) : list (list Z) :=
  tabulate n (fun i j => cell_at g j i).

(** How many of the eight offsets lead from [(a, b)] to [(i, j)]. *)
Definition hits (n a b i j : Z) : Z :=
  Z.of_nat (length (filter
    (fun '(dr, dc) => (a + dr) mod n = i ∧ (b + dc) mod n = j) DIRECTIONS)).

(** Block: the four cells of rows [r], [r + 1] and columns [c], [c + 1]. *)
Definition block (n r c : Z) : list (list Z) :=
  tabulate n (fun i j =>
    if ((i =? r) || (i =? r + 1)) && ((j =? c) || (j =? c + 1)) then 1 else 0).

(** One cell ALIVE, at [(r, c)]. *)
Definition single (n r c : Z) : list (list Z) :=
  tabulate n (fun i j => if (i =? r) && (j =? c) then 1 else 0).

(** [k] generations from [g]. *)
Definition generations (n : Z) (k : nat) (g : list (list Z)) : list (list Z) :=
  Nat.iter k (next_generation n) g.

(** The glider object with the buttons of the constructor. *)
Definition toolbar_game : GameOfLife :=
  mkGame 5 15 75 105 (grid glider_game) true true
    [ ("Start"%string, mkRect 10 5 80 25);
      ("Pause"%string, mkRect 100 5 80 25);
      ("End"%string, mkRect 190 5 80 25) ].

(** Objects of size 0, 1, 2 and 4. *)
Definition empty_game : GameOfLife := mkGame 0 15 0 30 [] true true [].

Definition unit_game : GameOfLife := mkGame 1 15 15 45 [[1]] true true [].

Definition diagonal_game : GameOfLife :=
  mkGame 2 15 30 60 [ [1; 0]; [0; 1] ] true true [].

Definition block_game : GameOfLife :=
  mkGame 4 15 60 90 (block 4 1 1) true true [].

Definition single_game : GameOfLife :=
  mkGame 4 15 60 90 (single 4 0 3) true true [].

(** * Properties *)

(** ** The definitions on small inputs *)

Example getitem_from_the_end self :
  py_getitem [10; 20; 30] (-1) self = Ok (30, self).
Proof. reflexivity. Qed.

Example getitem_out_of_range self :
  py_getitem [10; 20; 30] 3 self = Raise IndexError.
Proof. reflexivity. Qed.

Example range_negative : py_range (-2) = [].
Proof. reflexivity. Qed.

Example blinker_h_5 :
  blinker_h 5 2 2 = [ [0; 0; 0; 0; 0];
                      [0; 0; 0; 0; 0];
                      [0; 1; 1; 1; 0];
                      [0; 0; 0; 0; 0];
                      [0; 0; 0; 0; 0] ].
Proof. reflexivity. Qed.

Example blinker_v_5 :
  blinker_v 5 2 2 = [ [0; 0; 0; 0; 0];
                      [0; 0; 1; 0; 0];
                      [0; 0; 1; 0; 0];
                      [0; 0; 1; 0; 0];
                      [0; 0; 0; 0; 0] ].
Proof. reflexivity. Qed.

(** The bottom left corner of the glider's grid sees the top row. *)
Example count_neighbors_wraps :
  count_neighbors 4 0 glider_game = Ok (1, glider_game).
Proof. reflexivity. Qed.

Example init_3 :
  init 3 10
  = Ok (mkGame 3 10 30 60 [ [0; 0; 0]; [0; 0; 0]; [0; 0; 0] ] true false
          [ ("Start"%string, mkRect 10 5 80 25);
            ("Pause"%string, mkRect 100 5 80 25);
            ("End"%string, mkRect 190 5 80 25) ]).
Proof. reflexivity. Qed.

(** A press on the End button, a click in the toolbar. *)
Example click_on_end :
  handle_mouse_click (200, 10)
    (with_buttons [ ("Start"%string, mkRect 10 5 80 25);
                    ("Pause"%string, mkRect 100 5 80 25);
                    ("End"%string, mkRect 190 5 80 25) ] glider_game)
  = Ok (tt, mkGame 5 15 75 105
              [ [0; 0; 0; 0; 0]; [0; 0; 0; 0; 0]; [0; 0; 0; 0; 0];
                [0; 0; 0; 0; 0]; [0; 0; 0; 0; 0] ]
              true false
              [ ("Start"%string, mkRect 10 5 80 25);
                ("Pause"%string, mkRect 100 5 80 25);
                ("End"%string, mkRect 190 5 80 25) ]).
Proof. reflexivity. Qed.

(** Without a cell size no click can be mapped to a cell. *)
Example click_without_cell_size :
  handle_grid_click 20 50 (mkGame 5 0 0 30 (grid glider_game) true false [])
  = Raise ZeroDivisionError.
Proof. reflexivity. Qed.

(** On the object of size 0 the count divides by zero. *)
Example count_neighbors_size_zero :
  count_neighbors 0 0 (mkGame 0 15 0 30 [] true false [])
  = Raise ZeroDivisionError.
Proof. reflexivity. Qed.

(** ** Running the monad *)

Lemma bind_ok {A B : Type} (m : M A) (k : A -> M B) self a self' :
  m self = Ok (a, self') -> bind m k self = k a self'.
Proof. intros H. unfold bind. by rewrite H. Qed.

Lemma for_each_pure {A S : Type} (body : A -> S -> M S) (f : S -> A -> S)
    (l : list A) self :
  (forall x s, x ∈ l -> body x s self = Ok (f s x, self)) ->
  forall s, for_each l body s self = Ok (foldl f s l, self).
Proof.
  induction l as [|x l IH]; intros Hb s; simpl; [done|].
  rewrite (bind_ok _ _ _ _ _ (Hb x s ltac:(left))).
  apply IH. intros y t Hy. apply Hb. by right.
Qed.

Lemma for_each_app {A S : Type} (body : A -> S -> M S) (l1 l2 : list A) s self :
  for_each (l1 ++ l2) body s self
  = bind (for_each l1 body s) (for_each l2 body) self.
Proof.
  revert s self. induction l1 as [|x l1 IH]; intros s self; simpl.
  - done.
  - unfold bind. destruct (body x s self) as [[s' self']|e]; [|done].
    by rewrite IH.
Qed.

(** ** Indexing *)

Lemma py_index_in_range {A : Type} (l : list A) (i : Z) :
  0 <= i < Z.of_nat (length l) -> py_index l i = Some (Z.to_nat i).
Proof.
  intros H. unfold py_index.
  destruct (Z.leb_spec 0 i); [|lia].
  destruct (Z.ltb_spec i (Z.of_nat (length l))); [done|lia].
Qed.

Lemma py_getitem_in_range {A : Type} (l : list A) (i : Z) x self :
  0 <= i -> l !! Z.to_nat i = Some x -> py_getitem l i self = Ok (x, self).
Proof.
  intros Hi Hx. unfold py_getitem.
  rewrite py_index_in_range.
  - by rewrite Hx.
  - apply lookup_lt_Some in Hx. lia.
Qed.

Lemma py_setitem_in_range {A : Type} (l : list A) (i : Z) x self :
  0 <= i < Z.of_nat (length l) ->
  py_setitem l i x self = Ok (<[Z.to_nat i := x]> l, self).
Proof. intros H. unfold py_setitem. by rewrite py_index_in_range. Qed.

Lemma shape_row n g i :
  shape n g -> 0 <= i < n ->
  exists r, g !! Z.to_nat i = Some r ∧ Z.of_nat (length r) = n.
Proof.
  intros [Hl Hr] Hi.
  destruct (lookup_lt_is_Some_2 g (Z.to_nat i)) as [r Hg]; [lia|].
  exists r. split; [done|]. by apply (Forall_lookup_1 _ _ _ _ Hr Hg).
Qed.

Lemma shape_cell n g i j :
  shape n g -> 0 <= i < n -> 0 <= j < n ->
  exists r, g !! Z.to_nat i = Some r ∧ r !! Z.to_nat j = Some (cell_at g i j).
Proof.
  intros Hs Hi Hj. destruct (shape_row n g i Hs Hi) as (r & Hg & Hl).
  exists r. split; [done|].
  destruct (lookup_lt_is_Some_2 r (Z.to_nat j)) as [v Hv]; [lia|].
  unfold cell_at. rewrite Hg. simpl. by rewrite Hv.
Qed.

(** ** [count_neighbors] *)

Lemma count_step self row col dr dc count :
  shaped self -> 1 <= grid_size self ->
  (n <- gets grid_size ;;
   r <- py_mod (row + dr) n ;;
   n' <- gets grid_size ;;
   c <- py_mod (col + dc) n' ;;
   g <- gets grid ;;
   gr <- py_getitem g r ;;
   v <- py_getitem gr c ;;
   ret (count + v)) self
  = Ok (count + cell_at (grid self) ((row + dr) mod grid_size self)
                                    ((col + dc) mod grid_size self), self).
Proof.
  intros Hs Hn. unfold bind at 1, gets at 1, py_mod.
  destruct (Z.eqb_spec (grid_size self) 0) as [?|_]; [lia|].
  unfold bind, ret, gets.
  destruct (Z.eqb_spec (grid_size self) 0) as [?|_]; [lia|].
  assert (Hr : 0 <= (row + dr) mod grid_size self < grid_size self)
    by (apply Z.mod_pos_bound; lia).
  assert (Hc : 0 <= (col + dc) mod grid_size self < grid_size self)
    by (apply Z.mod_pos_bound; lia).
  destruct (shape_cell _ _ _ _ Hs Hr Hc) as (gr & Hg & Hv).
  rewrite (py_getitem_in_range _ _ _ _ (proj1 Hr) Hg).
  by rewrite (py_getitem_in_range _ _ _ _ (proj1 Hc) Hv).
Qed.

Lemma count_neighbors_run self row col :
  shaped self -> 1 <= grid_size self ->
  count_neighbors row col self
  = Ok (neighbor_sum (grid_size self) (grid self) row col, self).
Proof.
  intros Hs Hn. unfold count_neighbors.
  rewrite (for_each_pure _
    (fun count '(dr, dc) =>
       count + cell_at (grid self) ((row + dr) mod grid_size self)
                                   ((col + dc) mod grid_size self))).
  - done.
  - intros [dr dc] s _. by apply count_step.
Qed.

Lemma neighbor_sum_mod n g row col :
  neighbor_sum n g (row mod n) (col mod n) = neighbor_sum n g row col.
Proof.
  unfold neighbor_sum, neighbor_cells, DIRECTIONS. simpl.
  by rewrite !Zplus_mod_idemp_l.
Qed.

Lemma foldl_add_binary (l : list Z) (a : Z) :
  Forall (fun v => v = DEAD ∨ v = ALIVE) l ->
  foldl Z.add a l = a + Z.of_nat (length (filter (fun v => v = ALIVE) l)).
Proof.
  intros H. revert a. induction H as [|v l Hv _ IH]; intros a; simpl.
  - lia.
  - rewrite IH, filter_cons. unfold DEAD, ALIVE in *.
    destruct (decide (v = 1)); simpl; lia.
Qed.

Lemma binary_cell n g i j :
  grid_inv n g -> 0 <= i < n -> 0 <= j < n ->
  cell_at g i j = DEAD ∨ cell_at g i j = ALIVE.
Proof.
  intros [Hs Hb] Hi Hj.
  destruct (shape_cell n g i j Hs Hi Hj) as (r & Hg & Hv).
  pose proof (Forall_lookup_1 _ _ _ _ Hb Hg) as Hr.
  exact (Forall_lookup_1 _ _ _ _ Hr Hv).
Qed.

Lemma neighbor_cells_binary n g row col :
  grid_inv n g -> 1 <= n ->
  Forall (fun v => v = DEAD ∨ v = ALIVE) (neighbor_cells n g row col).
Proof.
  intros Hg Hn. unfold neighbor_cells. apply Forall_fmap, Forall_forall.
  intros [dr dc] _. simpl.
  apply (binary_cell n); [done| |]; apply Z.mod_pos_bound; lia.
Qed.

Lemma neighbor_sum_alive n g row col :
  grid_inv n g -> 1 <= n ->
  neighbor_sum n g row col = alive_neighbors n g row col.
Proof.
  intros Hg Hn. unfold neighbor_sum, alive_neighbors.
  rewrite (foldl_add_binary _ 0); [lia|]. by apply neighbor_cells_binary.
Qed.

Lemma alive_neighbors_bound n g row col :
  0 <= alive_neighbors n g row col <= 8.
Proof.
  unfold alive_neighbors. split; [lia|].
  pose proof (length_filter (fun v => v = ALIVE) (neighbor_cells n g row col)) as H.
  unfold neighbor_cells in H at 2. rewrite length_fmap in H. simpl in H. lia.
Qed.

(** ** Grids as matrices *)

Lemma shape_set_cell n g i j v : shape n g -> shape n (set_cell g i j v).
Proof.
  intros [Hl Hr]. unfold set_cell. split.
  - by rewrite length_alter.
  - apply Forall_alter; [done|]. intros r _ Hlen. by rewrite length_insert.
Qed.

Lemma cell_at_set_cell n g i j v a b :
  shape n g -> 0 <= i < n -> 0 <= j < n -> 0 <= a -> 0 <= b ->
  cell_at (set_cell g i j v) a b
  = if (a =? i) && (b =? j) then v else cell_at g a b.
Proof.
  intros Hs Hi Hj Ha Hb. unfold cell_at, set_cell.
  destruct (shape_row n g i Hs Hi) as (r & Hg & Hl).
  destruct (Z.eqb_spec a i) as [->|Hai]; simpl.
  - rewrite list_lookup_alter_eq, Hg. simpl.
    destruct (Z.eqb_spec b j) as [->|Hbj].
    + rewrite list_lookup_insert_eq by lia. done.
    + rewrite list_lookup_insert_ne by lia. done.
  - rewrite list_lookup_alter_ne by lia. done.
Qed.

Lemma insert_alter_row {A : Type} (g : list A) (i : nat) (f : A -> A) r :
  g !! i = Some r -> <[i := f r]> g = alter f i g.
Proof.
  intros Hg. apply list_eq. intros k.
  destruct (decide (i = k)) as [<-|Hne].
  - rewrite list_lookup_insert_eq by (by apply lookup_lt_Some in Hg).
    by rewrite list_lookup_alter_eq, Hg.
  - by rewrite list_lookup_insert_ne, list_lookup_alter_ne.
Qed.

Lemma shape_tabulate n f : 0 <= n -> shape n (tabulate n f).
Proof.
  intros Hn. unfold tabulate, py_range. split.
  - rewrite length_fmap, length_seqZ. lia.
  - apply Forall_fmap, Forall_forall. intros i _. simpl.
    rewrite length_fmap, length_seqZ. lia.
Qed.

Lemma cell_at_tabulate n f i j :
  0 <= i < n -> 0 <= j < n -> cell_at (tabulate n f) i j = f i j.
Proof.
  intros Hi Hj. unfold cell_at, tabulate, py_range.
  rewrite list_lookup_fmap, lookup_seqZ_lt by lia. simpl.
  rewrite list_lookup_fmap, lookup_seqZ_lt by lia. simpl.
  f_equal; lia.
Qed.

Lemma grid_ext n g1 g2 :
  shape n g1 -> shape n g2 ->
  (forall i j, 0 <= i < n -> 0 <= j < n -> cell_at g1 i j = cell_at g2 i j) ->
  g1 = g2.
Proof.
  intros Hs1 Hs2 Hc. apply list_eq. intros a.
  destruct (decide (Z.of_nat a < n)) as [Ha|Ha].
  - assert (Hi : 0 <= Z.of_nat a < n) by lia.
    destruct (shape_row n g1 _ Hs1 Hi) as (r1 & Hg1 & Hl1).
    destruct (shape_row n g2 _ Hs2 Hi) as (r2 & Hg2 & Hl2).
    rewrite Nat2Z.id in Hg1, Hg2. rewrite Hg1, Hg2. f_equal.
    apply list_eq. intros b.
    destruct (decide (Z.of_nat b < n)) as [Hb|Hb].
    + assert (Hj : 0 <= Z.of_nat b < n) by lia.
      specialize (Hc _ _ Hi Hj). unfold cell_at in Hc.
      rewrite !Nat2Z.id, Hg1, Hg2 in Hc. simpl in Hc.
      destruct (lookup_lt_is_Some_2 r1 b) as [v1 Hv1]; [lia|].
      destruct (lookup_lt_is_Some_2 r2 b) as [v2 Hv2]; [lia|].
      rewrite Hv1, Hv2 in *. simpl in Hc. by subst.
    + rewrite !(proj2 (lookup_ge_None _ _)) by lia. done.
  - destruct Hs1 as [Hl1 _], Hs2 as [Hl2 _].
    rewrite !(proj2 (lookup_ge_None _ _)) by lia. done.
Qed.

(** The clear grid is the all-DEAD matrix. *)
Lemma clear_grid_tabulate n :
  (fun _ : Z => (fun _ : Z => 0) <$> py_range n) <$> py_range n
  = tabulate n (fun _ _ => DEAD).
Proof. done. Qed.

(** ** [apply_rules] *)

Lemma store_cell_run n ng row col v self :
  shape n ng -> 0 <= row < n -> 0 <= col < n ->
  store_cell ng row col v self = Ok (set_cell ng row col v, self).
Proof.
  intros Hs Hr Hc. unfold store_cell.
  destruct (shape_row n ng row Hs Hr) as (r & Hg & Hl).
  rewrite (bind_ok _ _ _ _ _ (py_getitem_in_range _ _ _ self (proj1 Hr) Hg)).
  rewrite (bind_ok _ _ _ _ _ (py_setitem_in_range r col v self ltac:(lia))).
  rewrite py_setitem_in_range by (destruct Hs; lia).
  unfold set_cell. by rewrite (insert_alter_row _ _ (fun r => <[_ := v]> r) _ Hg).
Qed.

Lemma for_each_inv {A S : Type} (I : S -> Prop) (body : A -> S -> M S)
    (f : S -> A -> S) (l : list A) self :
  (forall x s, x ∈ l -> I s -> body x s self = Ok (f s x, self) ∧ I (f s x)) ->
  forall s, I s -> for_each l body s self = Ok (foldl f s l, self) ∧ I (foldl f s l).
Proof.
  induction l as [|x l IH]; intros Hb s Hs; simpl; [done|].
  destruct (Hb x s ltac:(left) Hs) as [Hrun Hinv].
  rewrite (bind_ok _ _ _ _ _ Hrun).
  apply IH; [|done]. intros y t Hy. apply Hb. by right.
Qed.

Lemma cell_body_run self ng row col :
  shaped self -> shape (grid_size self) ng ->
  0 <= row < grid_size self -> 0 <= col < grid_size self ->
  (neighbors <- count_neighbors row col ;;
   g <- gets grid ;;
   gr <- py_getitem g row ;;
   cell <- py_getitem gr col ;;
   if (cell =? 1) && ((neighbors <? 2) || (neighbors >? 3)) then
     store_cell ng row col 0
   else if (cell =? 0) && (neighbors =? 3) then
     store_cell ng row col 1
   else
     store_cell ng row col cell) self
  = Ok (set_cell ng row col (next_cell self row col), self).
Proof.
  intros Hs Hng Hr Hc.
  rewrite (bind_ok _ _ _ _ _ (count_neighbors_run self row col Hs ltac:(lia))).
  unfold bind at 1, gets at 1.
  destruct (shape_cell _ _ _ _ Hs Hr Hc) as (gr & Hg & Hv).
  rewrite (bind_ok _ _ _ _ _ (py_getitem_in_range _ _ _ self (proj1 Hr) Hg)).
  rewrite (bind_ok _ _ _ _ _ (py_getitem_in_range _ _ _ self (proj1 Hc) Hv)).
  unfold next_cell, rule.
  destruct (_ && _); [by apply (store_cell_run (grid_size self))|].
  destruct (_ && _); by apply (store_cell_run (grid_size self)).
Qed.

Lemma fill_row_spec n (F : Z -> Z) row ng (k : nat) :
  shape n ng -> 0 <= row < n -> Z.of_nat k <= n ->
  let ng' := foldl (fun ng col => set_cell ng row col (F col)) ng
                   (seqZ 0 (Z.of_nat k)) in
  shape n ng' ∧
  forall a b, 0 <= a -> 0 <= b ->
    cell_at ng' a b
    = if (a =? row) && (b <? Z.of_nat k) then F b else cell_at ng a b.
Proof.
  intros Hs Hr. induction k as [|k IH]; intros Hk; simpl.
  - split; [done|]. intros a b _ Hb.
    destruct (Z.ltb_spec b (Z.of_nat 0)); [lia|]. by rewrite andb_false_r.
  - destruct IH as [IHs IHc]; [lia|].
    rewrite seqZ_S, foldl_snoc. split; [by apply shape_set_cell|].
    intros a b Ha Hb. rewrite (cell_at_set_cell n), IHc by (done || lia).
    destruct (Z.eqb_spec a row), (Z.eqb_spec b (0 + Z.of_nat k)),
             (Z.ltb_spec b (Z.of_nat k)), (Z.ltb_spec b (Z.of_nat (S k)));
      simpl; try lia; try done.
    by subst.
Qed.

Lemma fill_row_full n (F : Z -> Z) row ng :
  shape n ng -> 0 <= row < n ->
  let ng' := foldl (fun ng col => set_cell ng row col (F col)) ng (seqZ 0 n) in
  shape n ng' ∧
  forall a b, 0 <= a -> 0 <= b < n ->
    cell_at ng' a b = if a =? row then F b else cell_at ng a b.
Proof.
  intros Hs Hr.
  pose proof (fill_row_spec n F row ng (Z.to_nat n) Hs Hr ltac:(lia)) as H.
  rewrite Z2Nat.id in H by lia. destruct H as [Hs' Hc]. split; [done|].
  intros a b Ha Hb. rewrite Hc by lia.
  destruct (Z.ltb_spec b n); [|lia]. by rewrite andb_true_r.
Qed.

Lemma fill_rows_spec n (F : Z -> Z -> Z) ng (k : nat) :
  shape n ng -> Z.of_nat k <= n ->
  let ng' := foldl (fun ng row =>
                      foldl (fun ng col => set_cell ng row col (F row col)) ng
                            (seqZ 0 n))
                   ng (seqZ 0 (Z.of_nat k)) in
  shape n ng' ∧
  forall a b, 0 <= a -> 0 <= b < n ->
    cell_at ng' a b = if a <? Z.of_nat k then F a b else cell_at ng a b.
Proof.
  intros Hs. induction k as [|k IH]; intros Hk; simpl.
  - split; [done|]. intros a b Ha _.
    by destruct (Z.ltb_spec a (Z.of_nat 0)); [lia|].
  - destruct IH as [IHs IHc]; [lia|].
    rewrite seqZ_S, foldl_snoc.
    destruct (fill_row_full n (F (0 + Z.of_nat k)) (0 + Z.of_nat k) _
                IHs ltac:(lia)) as [Hs' Hc'].
    split; [done|]. intros a b Ha Hb.
    rewrite Hc', IHc by (done || lia).
    destruct (Z.eqb_spec a (0 + Z.of_nat k)),
             (Z.ltb_spec a (Z.of_nat k)), (Z.ltb_spec a (Z.of_nat (S k)));
      simpl; try lia; try done.
    by subst.
Qed.

Lemma apply_rules_run self :
  shaped self ->
  apply_rules self = Ok (next_generation (grid_size self) (grid self), self).
Proof.
  intros Hs. set (n := grid_size self).
  assert (Hn : 0 <= n) by (destruct Hs as [Hl _]; unfold n; lia).
  unfold apply_rules, bind at 1 2, gets at 1 2. fold n.
  rewrite clear_grid_tabulate.
  destruct (for_each_inv (shape n)
    (fun row new_grid =>
       n2 <- gets grid_size ;;
       for_each (py_range n2)
         (fun col new_grid =>
            neighbors <- count_neighbors row col ;;
            g <- gets grid ;;
            gr <- py_getitem g row ;;
            cell <- py_getitem gr col ;;
            if (cell =? 1) && ((neighbors <? 2) || (neighbors >? 3)) then
              store_cell new_grid row col 0
            else if (cell =? 0) && (neighbors =? 3) then
              store_cell new_grid row col 1
            else
              store_cell new_grid row col cell)
         new_grid)
    (fun ng row =>
       foldl (fun ng col => set_cell ng row col (next_cell self row col)) ng
             (seqZ 0 n))
    (py_range n) self) with (s := tabulate n (fun _ _ => DEAD)) as [Hrun _].
  - intros row ng Hrow Hng. apply elem_of_seqZ in Hrow.
    unfold bind at 1, gets at 1. fold n. unfold py_range.
    apply (for_each_inv (shape n)); [|done].
    intros col ng' Hcol Hng'. apply elem_of_seqZ in Hcol.
    split.
    + apply cell_body_run; (done || (fold n; lia)).
    + by apply shape_set_cell.
  - by apply shape_tabulate.
  - rewrite Hrun. f_equal. f_equal. unfold py_range.
    assert (Hnn : n = Z.of_nat (Z.to_nat n)) by lia.
    destruct (fill_rows_spec n (next_cell self) (tabulate n (fun _ _ => DEAD))
                (Z.to_nat n) (shape_tabulate n _ Hn) ltac:(lia)) as [Hs' Hc'].
    rewrite <- Hnn in Hs', Hc'.
    apply (grid_ext n); [done|by apply shape_tabulate|].
    intros i j Hi Hj. rewrite Hc' by lia.
    destruct (Z.ltb_spec i n); [|lia].
    unfold next_generation. by rewrite cell_at_tabulate.
Qed.

(** ** Cell toggling *)

Lemma in_grid_true n row col :
  in_grid n row col = true <-> 0 <= row < n ∧ 0 <= col < n.
Proof.
  unfold in_grid.
  destruct (Z.leb_spec 0 row), (Z.ltb_spec row n),
           (Z.leb_spec 0 col), (Z.ltb_spec col n); simpl; split;
    (done || lia).
Qed.

Lemma with_grid_same self : with_grid (grid self) self = self.
Proof. by destruct self. Qed.

Lemma handle_grid_click_in self x y :
  shaped self -> cell_size self <> 0 ->
  in_grid (grid_size self) (click_row self y) (click_col self x) = true ->
  handle_grid_click x y self
  = Ok (tt, with_grid (set_cell (grid self) (click_row self y) (click_col self x)
                         (1 - cell_at (grid self) (click_row self y)
                                                  (click_col self x))) self).
Proof.
  intros Hs Hcs Hin. unfold handle_grid_click, bind at 1, gets at 1.
  unfold bind at 1, py_floordiv at 1.
  destruct (Z.eqb_spec (cell_size self) 0) as [?|_]; [done|].
  unfold ret at 1, bind at 1, py_floordiv at 1.
  destruct (Z.eqb_spec (cell_size self) 0) as [?|_]; [done|].
  unfold ret at 1, bind at 1, gets at 1.
  fold (click_row self y) (click_col self x). rewrite Hin.
  apply in_grid_true in Hin as [Hr Hc].
  unfold bind at 1, gets at 1.
  destruct (shape_cell _ _ _ _ Hs Hr Hc) as (r & Hg & Hv).
  rewrite (bind_ok _ _ _ _ _ (py_getitem_in_range _ _ _ self (proj1 Hr) Hg)).
  rewrite (bind_ok _ _ _ _ _ (py_getitem_in_range _ _ _ self (proj1 Hc) Hv)).
  destruct (shape_row _ _ _ Hs Hr) as (r' & Hg' & Hl).
  rewrite Hg in Hg'. injection Hg' as <-.
  rewrite (bind_ok _ _ _ _ _ (py_setitem_in_range r (click_col self x) _ self ltac:(lia))).
  rewrite (bind_ok _ _ _ _ _
             (py_setitem_in_range (grid self) (click_row self y) _ self
                ltac:(destruct Hs; lia))).
  unfold modify, set_cell.
  by rewrite (insert_alter_row _ _ (fun r => <[_ := _]> r) _ Hg).
Qed.

Lemma handle_grid_click_out self x y :
  cell_size self <> 0 ->
  in_grid (grid_size self) (click_row self y) (click_col self x) = false ->
  handle_grid_click x y self = Ok (tt, self).
Proof.
  intros Hcs Hin. unfold handle_grid_click, bind at 1, gets at 1.
  unfold bind at 1, py_floordiv at 1.
  destruct (Z.eqb_spec (cell_size self) 0) as [?|_]; [done|].
  unfold ret at 1, bind at 1, py_floordiv at 1.
  destruct (Z.eqb_spec (cell_size self) 0) as [?|_]; [done|].
  unfold ret at 1, bind at 1, gets at 1.
  fold (click_row self y) (click_col self x). by rewrite Hin.
Qed.

Lemma binary_set_cell g i j v :
  binary g -> v = DEAD ∨ v = ALIVE -> binary (set_cell g i j v).
Proof.
  intros Hb Hv. unfold binary, set_cell.
  apply Forall_alter; [done|]. intros r _ Hr. by apply Forall_insert.
Qed.

Lemma binary_tabulate n f :
  (forall i j, f i j = DEAD ∨ f i j = ALIVE) -> binary (tabulate n f).
Proof.
  intros Hf. unfold binary, tabulate.
  apply Forall_fmap, Forall_forall. intros i _. simpl.
  apply Forall_fmap, Forall_forall. intros j _. simpl. apply Hf.
Qed.

Lemma rule_binary cell k :
  cell = DEAD ∨ cell = ALIVE -> rule cell k = DEAD ∨ rule cell k = ALIVE.
Proof.
  unfold rule, DEAD, ALIVE. intros [->| ->]; simpl.
  - destruct (k =? 3); auto.
  - destruct (_ || _); auto.
Qed.

(** ** The transition rule *)

Lemma rule_cases cell k :
  (cell = ALIVE -> k < 2 ∨ k > 3 -> rule cell k = DEAD) ∧
  (cell = DEAD -> k = 3 -> rule cell k = ALIVE) ∧
  (¬ (cell = ALIVE ∧ (k < 2 ∨ k > 3)) -> ¬ (cell = DEAD ∧ k = 3) ->
   rule cell k = cell).
Proof.
  unfold rule, DEAD, ALIVE.
  destruct (Z.eqb_spec cell 1), (Z.eqb_spec cell 0), (Z.ltb_spec k 2),
           (Z.gtb_spec k 3), (Z.eqb_spec k 3); simpl; lia.
Qed.

(** C1: on an N x N grid with N >= 1, [apply_rules] returns a new N x N
    grid and leaves the object, its grid included, as it was.  Every cell
    of the result is a function of the grid before the step: an ALIVE cell
    with fewer than 2 or more than 3 alive neighbours on the torus becomes
    DEAD, a DEAD cell with exactly 3 becomes ALIVE, any other cell keeps
    its state. *)
Theorem apply_rules_next_generation (self : GameOfLife) :
  1 <= grid_size self -> well_formed self ->
  exists new_grid,
    apply_rules self = Ok (new_grid, self) ∧
    new_grid = next_generation (grid_size self) (grid self) ∧
    shape (grid_size self) new_grid ∧
    forall row col,
      0 <= row < grid_size self -> 0 <= col < grid_size self ->
      let cell := cell_at (grid self) row col in
      let k := alive_neighbors (grid_size self) (grid self) row col in
      (cell = ALIVE -> k < 2 ∨ k > 3 -> cell_at new_grid row col = DEAD) ∧
      (cell = DEAD -> k = 3 -> cell_at new_grid row col = ALIVE) ∧
      (¬ (cell = ALIVE ∧ (k < 2 ∨ k > 3)) -> ¬ (cell = DEAD ∧ k = 3) ->
       cell_at new_grid row col = cell).
Proof.
  intros Hn [Hs Hb]. eexists. split; [by apply apply_rules_run|].
  split; [done|]. split; [apply shape_tabulate; lia|].
  intros row col Hr Hc. unfold next_generation.
  rewrite cell_at_tabulate by done.
  rewrite neighbor_sum_alive by done. apply rule_cases.
Qed.

(** C2: on an N x N grid of DEAD and ALIVE cells with N >= 1, and for a
    cell inside the grid, [count_neighbors] returns the number of ALIVE
    cells among the eight positions at the offsets (-1,-1), (-1,0),
    (-1,1), (0,-1), (0,1), (1,-1), (1,0), (1,1), both indices taken
    modulo N; the number lies between 0 and 8. *)
Theorem count_neighbors_moore (self : GameOfLife) (row col : Z) :
  1 <= grid_size self -> well_formed self ->
  0 <= row < grid_size self -> 0 <= col < grid_size self ->
  exists k,
    count_neighbors row col self = Ok (k, self) ∧
    0 <= k <= 8 ∧
    k = Z.of_nat (length (filter (fun v => v = ALIVE)
          ((fun '(dr, dc) =>
              cell_at (grid self) ((row + dr) mod grid_size self)
                                  ((col + dc) mod grid_size self))
           <$> [ (-1, -1); (-1, 0); (-1, 1); (0, -1); (0, 1);
                 (1, -1); (1, 0); (1, 1) ]))).
Proof.
  intros Hn [Hs Hb] _ _. exists (alive_neighbors (grid_size self) (grid self) row col).
  split; [|split].
  - rewrite count_neighbors_run by done. by rewrite neighbor_sum_alive.
  - apply alive_neighbors_bound.
  - done.
Qed.

(** C9: on an N x N grid with N >= 1, [count_neighbors] returns a count
    for every pair of integers [row], [col], inside the grid or not, and
    the count is the one at [(row mod N, col mod N)]. *)
Theorem count_neighbors_periodic (self : GameOfLife) (row col : Z) :
  1 <= grid_size self -> shaped self ->
  exists k,
    count_neighbors row col self = Ok (k, self) ∧
    count_neighbors (row mod grid_size self) (col mod grid_size self) self
    = Ok (k, self).
Proof.
  intros Hn Hs. eexists. split; [by apply count_neighbors_run|].
  rewrite count_neighbors_run by done. by rewrite neighbor_sum_mod.
Qed.

(** ** The controls *)

Lemma update_grid_run self :
  shaped self ->
  update_grid self
  = Ok (tt, with_grid (next_generation (grid_size self) (grid self)) self).
Proof.
  intros Hs. unfold update_grid.
  by rewrite (bind_ok _ _ _ _ _ (apply_rules_run self Hs)).
Qed.

(** C3: the step of the main loop, [if self.is_running:
    self.update_grid()], leaves the object unchanged while the simulation
    is stopped, whatever the grid holds; while it is running the step
    replaces the grid by the grid [apply_rules] returns for the current
    one and changes nothing else. *)
Theorem tick_stopped_running (self : GameOfLife) :
  (is_running self = false -> tick self = Ok (tt, self)) ∧
  (is_running self = true -> shaped self ->
   exists new_grid,
     apply_rules self = Ok (new_grid, self) ∧
     tick self = Ok (tt, with_grid new_grid self)).
Proof.
  split.
  - intros Hrun. unfold tick, bind, gets. by rewrite Hrun.
  - intros Hrun Hs. eexists. split; [by apply apply_rules_run|].
    unfold tick, bind at 1, gets at 1. rewrite Hrun.
    by apply update_grid_run.
Qed.

Lemma clear_grid_replicate n :
  tabulate n (fun _ _ => DEAD)
  = replicate (Z.to_nat n) (replicate (Z.to_nat n) DEAD).
Proof.
  unfold tabulate, py_range.
  rewrite (const_fmap _ (seqZ 0 n) (replicate (Z.to_nat n) DEAD)).
  - by rewrite length_seqZ.
  - intros i. rewrite (const_fmap _ (seqZ 0 n) DEAD); [|done].
    by rewrite length_seqZ.
Qed.

Lemma end_simulation_run self :
  end_simulation self
  = Ok (tt, with_is_running false
              (with_grid (tabulate (grid_size self) (fun _ _ => DEAD)) self)).
Proof. done. Qed.

(** C4: from any state, running or stopped and with any cells alive,
    [end_simulation] leaves the simulation stopped and the grid the
    N x N matrix of DEAD cells, N being the grid size the object was
    built with. *)
Theorem end_simulation_clears (self : GameOfLife) :
  0 <= grid_size self ->
  exists self',
    end_simulation self = Ok (tt, self') ∧
    is_running self' = false ∧
    grid_size self' = grid_size self ∧
    grid self' = replicate (Z.to_nat (grid_size self))
                           (replicate (Z.to_nat (grid_size self)) DEAD) ∧
    shape (grid_size self) (grid self').
Proof.
  intros Hn. eexists. split; [apply end_simulation_run|]. simpl.
  split; [done|]. split; [done|]. split; [apply clear_grid_replicate|].
  by apply shape_tabulate.
Qed.

(** ** Toggling a cell *)

Lemma set_cell_twice n g i j v :
  shape n g -> 0 <= i < n -> 0 <= j < n ->
  set_cell (set_cell g i j v) i j (cell_at g i j) = g.
Proof.
  intros Hs Hi Hj.
  apply (grid_ext n); [by do 2 apply shape_set_cell|done|].
  intros a b Ha Hb.
  rewrite (cell_at_set_cell n) by (try apply shape_set_cell; done || lia).
  rewrite (cell_at_set_cell n) by (done || lia).
  destruct (Z.eqb_spec a i) as [->|?], (Z.eqb_spec b j) as [->|?]; done.
Qed.

(** C7: a click on a cell of the grid, repeated at the same pixel, leaves
    the object, and so the grid, as it was before the first click. *)
Theorem toggle_twice (self : GameOfLife) (x y : Z) :
  shaped self -> cell_size self <> 0 ->
  in_grid (grid_size self) (click_row self y) (click_col self x) = true ->
  (handle_grid_click x y ;;; handle_grid_click x y) self = Ok (tt, self).
Proof.
  intros Hs Hcs Hin.
  rewrite (bind_ok _ _ _ _ _ (handle_grid_click_in self x y Hs Hcs Hin)).
  pose proof (proj1 (in_grid_true _ _ _) Hin) as [Hr Hc].
  set (self1 := with_grid _ self).
  assert (Hs1 : shaped self1) by (by apply shape_set_cell).
  rewrite (handle_grid_click_in self1 x y Hs1 Hcs Hin).
  f_equal. f_equal. unfold self1. simpl.
  change (click_row (with_grid _ self) y) with (click_row self y).
  change (click_col (with_grid _ self) x) with (click_col self x).
  rewrite (cell_at_set_cell (grid_size self)) by (done || lia).
  rewrite !Z.eqb_refl. simpl.
  replace (1 - (1 - cell_at (grid self) (click_row self y) (click_col self x)))
    with (cell_at (grid self) (click_row self y) (click_col self x)) by lia.
  rewrite (set_cell_twice (grid_size self)) by done.
  by destruct self.
Qed.

(** C10: a click that lands on a cell of the grid replaces that cell by
    one minus its value, which turns DEAD into ALIVE and ALIVE into DEAD,
    and leaves every other cell, the dimensions and the other attributes,
    the running flag among them, as they were; a click that lands outside
    the grid changes nothing and raises nothing. *)
Theorem handle_grid_click_frame (self : GameOfLife) (x y : Z) :
  shaped self -> cell_size self <> 0 ->
  let n := grid_size self in
  let row := click_row self y in
  let col := click_col self x in
  (in_grid n row col = true ->
   exists self',
     handle_grid_click x y self = Ok (tt, self') ∧
     cell_at (grid self') row col = 1 - cell_at (grid self) row col ∧
     (cell_at (grid self) row col = DEAD -> cell_at (grid self') row col = ALIVE) ∧
     (cell_at (grid self) row col = ALIVE -> cell_at (grid self') row col = DEAD) ∧
     (forall a b, 0 <= a < n -> 0 <= b < n -> (a, b) <> (row, col) ->
        cell_at (grid self') a b = cell_at (grid self) a b) ∧
     shape n (grid self') ∧
     self' = with_grid (grid self') self) ∧
  (in_grid n row col = false -> handle_grid_click x y self = Ok (tt, self)).
Proof.
  intros Hs Hcs n row col. split.
  - intros Hin. eexists. split; [by apply handle_grid_click_in|]. simpl.
    pose proof (proj1 (in_grid_true _ _ _) Hin) as [Hr Hc].
    assert (Hcell : cell_at (set_cell (grid self) row col
                      (1 - cell_at (grid self) row col)) row col
                    = 1 - cell_at (grid self) row col).
    { rewrite (cell_at_set_cell n) by (done || lia).
      by rewrite !Z.eqb_refl. }
    fold row col. rewrite Hcell. unfold DEAD, ALIVE.
    split; [done|]. split; [lia|]. split; [lia|]. split; [|split].
    + intros a b Ha Hb Hne. rewrite (cell_at_set_cell n) by (done || lia).
      destruct (Z.eqb_spec a row) as [->|?], (Z.eqb_spec b col) as [->|?];
        done.
    + by apply shape_set_cell.
    + done.
  - intros Hin. by apply handle_grid_click_out.
Qed.

(** ** The blinker *)

Lemma tabulate_ext n f1 f2 :
  (forall i j, 0 <= i < n -> 0 <= j < n -> f1 i j = f2 i j) ->
  tabulate n f1 = tabulate n f2.
Proof.
  intros H. destruct (decide (0 <= n)) as [Hn|Hn].
  - apply (grid_ext n); [by apply shape_tabulate..|].
    intros i j Hi Hj. rewrite !cell_at_tabulate by done. by apply H.
  - unfold tabulate, py_range. by rewrite !seqZ_nil by lia.
Qed.

Lemma wrap_pred n i :
  0 <= i < n -> (i + -1) mod n = if i =? 0 then n - 1 else i - 1.
Proof.
  intros Hi. destruct (Z.eqb_spec i 0) as [->|Hne].
  - replace (0 + -1) with (n - 1 + -1 * n) by lia.
    rewrite Z_mod_plus_full. apply Z.mod_small. lia.
  - apply Z.mod_small. lia.
Qed.

Lemma wrap_succ n i :
  0 <= i < n -> (i + 1) mod n = if i =? n - 1 then 0 else i + 1.
Proof.
  intros Hi. destruct (Z.eqb_spec i (n - 1)) as [->|Hne].
  - replace (n - 1 + 1) with (0 + 1 * n) by lia.
    rewrite Z_mod_plus_full. apply Z.mod_small. lia.
  - apply Z.mod_small. lia.
Qed.

Lemma wrap_same n i : 0 <= i < n -> (i + 0) mod n = i.
Proof. intros Hi. rewrite Z.add_0_r. by apply Z.mod_small. Qed.

Ltac split_tests :=
  repeat match goal with
  | |- context [?a =? ?b] => destruct (Z.eqb_spec a b); try lia
  | |- context [?a <=? ?b] => destruct (Z.leb_spec a b); try lia
  | |- context [?a <? ?b] => destruct (Z.ltb_spec a b); try lia
  | |- context [?a >? ?b] => destruct (Z.gtb_spec a b); try lia
  end.

Lemma next_generation_tabulate n f :
  1 <= n ->
  next_generation n (tabulate n f)
  = tabulate n (fun i j =>
      rule (f i j)
        (0 + f ((i + -1) mod n) ((j + -1) mod n)
           + f ((i + -1) mod n) j
           + f ((i + -1) mod n) ((j + 1) mod n)
           + f i ((j + -1) mod n)
           + f i ((j + 1) mod n)
           + f ((i + 1) mod n) ((j + -1) mod n)
           + f ((i + 1) mod n) j
           + f ((i + 1) mod n) ((j + 1) mod n))).
Proof.
  intros Hn. unfold next_generation. apply tabulate_ext. intros i j Hi Hj.
  unfold neighbor_sum, neighbor_cells, DIRECTIONS. simpl.
  rewrite !cell_at_tabulate by (try apply Z.mod_pos_bound; lia).
  by rewrite !wrap_same by done.
Qed.

Lemma blinker_h_to_v n r c :
  5 <= n -> 1 <= r <= n - 2 -> 1 <= c <= n - 2 ->
  next_generation n (blinker_h n r c) = blinker_v n r c.
Proof.
  intros Hn Hr Hc. unfold blinker_h, blinker_v.
  rewrite next_generation_tabulate by lia.
  apply tabulate_ext. intros i j Hi Hj.
  rewrite !wrap_pred, !wrap_succ by done. unfold rule.
  destruct (Z.eqb_spec i 0), (Z.eqb_spec i (n - 1)),
           (Z.eqb_spec j 0), (Z.eqb_spec j (n - 1)); try lia;
    split_tests; simpl; split_tests; done.
Qed.

Lemma blinker_v_to_h n r c :
  5 <= n -> 1 <= r <= n - 2 -> 1 <= c <= n - 2 ->
  next_generation n (blinker_v n r c) = blinker_h n r c.
Proof.
  intros Hn Hr Hc. unfold blinker_h, blinker_v.
  rewrite next_generation_tabulate by lia.
  apply tabulate_ext. intros i j Hi Hj.
  rewrite !wrap_pred, !wrap_succ by done. unfold rule.
  destruct (Z.eqb_spec i 0), (Z.eqb_spec i (n - 1)),
           (Z.eqb_spec j 0), (Z.eqb_spec j (n - 1)); try lia;
    split_tests; simpl; split_tests; done.
Qed.

(** C8: on a grid of size N >= 5, all DEAD but for the three cells of row
    [r] at columns [c - 1], [c], [c + 1], placed so that the cells around
    [(r, c)] are inside the grid, [apply_rules] returns the grid that is
    all DEAD but for the three cells of column [c] at rows [r - 1], [r],
    [r + 1]; applied to that grid it returns the first one. *)
Theorem blinker_period_two (self : GameOfLife) (n r c : Z) :
  5 <= n -> 1 <= r <= n - 2 -> 1 <= c <= n - 2 ->
  grid_size self = n -> grid self = blinker_h n r c ->
  apply_rules self = Ok (blinker_v n r c, self) ∧
  apply_rules (with_grid (blinker_v n r c) self)
  = Ok (blinker_h n r c, with_grid (blinker_v n r c) self) ∧
  (update_grid ;;; update_grid) self = Ok (tt, self).
Proof.
  intros Hn Hr Hc Hsize Hgrid.
  assert (Hs : shaped self).
  { unfold shaped. rewrite Hsize, Hgrid. apply shape_tabulate. lia. }
  assert (Hs' : shaped (with_grid (blinker_v n r c) self)).
  { unfold shaped. simpl. rewrite Hsize. apply shape_tabulate. lia. }
  assert (H1 : apply_rules self = Ok (blinker_v n r c, self)).
  { rewrite apply_rules_run by done.
    by rewrite Hsize, Hgrid, blinker_h_to_v. }
  assert (H2 : apply_rules (with_grid (blinker_v n r c) self)
               = Ok (blinker_h n r c, with_grid (blinker_v n r c) self)).
  { rewrite apply_rules_run by done. simpl.
    by rewrite Hsize, blinker_v_to_h. }
  split; [done|]. split; [done|].
  unfold update_grid.
  unfold bind at 1. unfold bind at 1. rewrite H1.
  unfold modify at 1. unfold bind at 1. rewrite H2.
  unfold modify. f_equal. f_equal. rewrite <- Hgrid. by destruct self.
Qed.

(** ** The grid invariant *)

Lemma cell_at_binary g i j :
  binary g -> cell_at g i j = DEAD ∨ cell_at g i j = ALIVE.
Proof.
  intros Hb. unfold cell_at.
  destruct (g !! Z.to_nat i) as [r|] eqn:Hg; simpl; [|by left].
  destruct (r !! Z.to_nat j) as [v|] eqn:Hv; simpl; [|by left].
  exact (Forall_lookup_1 _ _ _ _ (Forall_lookup_1 _ _ _ _ Hb Hg) Hv).
Qed.

Lemma grid_inv_clear n : 0 <= n -> grid_inv n (tabulate n (fun _ _ => DEAD)).
Proof.
  intros Hn. split; [by apply shape_tabulate|].
  apply binary_tabulate. by left.
Qed.

Lemma grid_inv_next_generation n g :
  grid_inv n g -> grid_inv n (next_generation n g).
Proof.
  intros [Hs Hb]. split.
  - apply shape_tabulate. destruct Hs. lia.
  - apply binary_tabulate. intros i j. by apply rule_binary, cell_at_binary.
Qed.

Lemma grid_inv_toggle n g i j :
  grid_inv n g -> grid_inv n (set_cell g i j (1 - cell_at g i j)).
Proof.
  intros [Hs Hb]. split; [by apply shape_set_cell|].
  apply binary_set_cell; [done|].
  destruct (cell_at_binary g i j Hb) as [-> | ->]; unfold DEAD, ALIVE; auto.
Qed.

Lemma stable_true : stable (fun _ => True).
Proof. done. Qed.

Lemma stable_clickable : stable clickable.
Proof. done. Qed.

Section Preservation.
Variable P : GameOfLife -> Prop.
Hypothesis P_stable : stable P.

Lemma start_simulation_preserves : preserves_under P start_simulation.
Proof.
  intros self Hwf HP. exists (with_is_running true self).
  split; [done|]. split; [done|]. split; [done|]. by apply P_stable.
Qed.

Lemma pause_simulation_preserves : preserves_under P pause_simulation.
Proof.
  intros self Hwf HP. exists (with_is_running false self).
  split; [done|]. split; [done|]. split; [done|]. by apply P_stable.
Qed.

Lemma end_simulation_preserves : preserves_under P end_simulation.
Proof.
  intros self Hwf HP. eexists. split; [apply end_simulation_run|].
  split; [done|]. split.
  - apply grid_inv_clear. destruct Hwf as [[Hl _] _]. simpl. lia.
  - by apply P_stable, P_stable.
Qed.

Lemma update_grid_preserves : preserves_under P update_grid.
Proof.
  intros self Hwf HP. eexists.
  split; [apply update_grid_run, Hwf|].
  split; [done|]. split.
  - by apply grid_inv_next_generation.
  - by apply P_stable.
Qed.

Lemma tick_preserves : preserves_under P tick.
Proof.
  intros self Hwf HP. unfold tick, bind, gets.
  destruct (is_running self).
  - by apply update_grid_preserves.
  - by exists self.
Qed.

Lemma toolbar_loop_preserves bs x y : preserves_under P (toolbar_loop bs x y).
Proof.
  induction bs as [|[text rect] bs IH]; simpl.
  - intros self Hwf HP. by exists self.
  - destruct (collidepoint rect x y); [|done].
    destruct (String.eqb text "Start"); [apply start_simulation_preserves|].
    destruct (String.eqb text "Pause"); [apply pause_simulation_preserves|].
    destruct (String.eqb text "End"); [apply end_simulation_preserves|].
    intros self Hwf HP. by exists self.
Qed.

Lemma handle_toolbar_click_preserves x y :
  preserves_under P (handle_toolbar_click x y).
Proof.
  intros self Hwf HP. unfold handle_toolbar_click, bind, gets.
  by apply toolbar_loop_preserves.
Qed.
End Preservation.

Lemma handle_grid_click_preserves x y :
  preserves_under clickable (handle_grid_click x y).
Proof.
  intros self Hwf Hcs.
  destruct (in_grid (grid_size self) (click_row self y) (click_col self x))
    eqn:Hin.
  - eexists. split; [apply handle_grid_click_in; (done || apply Hwf)|].
    split; [done|]. split; [|done]. by apply grid_inv_toggle.
  - exists self. split; [by apply handle_grid_click_out|done].
Qed.

Lemma handle_event_preserves ev : preserves_under clickable (handle_event ev).
Proof.
  destruct ev as [|[x y]|]; simpl.
  - intros self Hwf HP. by exists (with_window_alive false self).
  - destruct (y <? TOOLBAR_HEIGHT).
    + apply handle_toolbar_click_preserves, stable_clickable.
    + apply handle_grid_click_preserves.
  - intros self Hwf HP. by exists self.
Qed.

Lemma preserves_bind (P : GameOfLife -> Prop) (m : M unit) (k : unit -> M unit) :
  preserves_under P m -> preserves_under P (k tt) -> preserves_under P (bind m k).
Proof.
  intros Hm Hk self Hwf HP.
  destruct (Hm self Hwf HP) as (self1 & Hrun1 & Hn1 & Hwf1 & HP1).
  destruct (Hk self1 Hwf1 HP1) as (self2 & Hrun2 & Hn2 & Hwf2 & HP2).
  exists self2. rewrite (bind_ok _ _ _ _ _ Hrun1).
  split; [done|]. split; [congruence|done].
Qed.

Lemma events_preserve events :
  preserves_under clickable (for_each events (fun ev _ => handle_event ev) tt).
Proof.
  induction events as [|ev events IH]; simpl.
  - intros self Hwf HP. by exists self.
  - apply preserves_bind; [apply handle_event_preserves|done].
Qed.

Lemma run_frame_preserves events : preserves_under clickable (run_frame events).
Proof.
  apply preserves_bind; [apply events_preserve|].
  apply tick_preserves, stable_clickable.
Qed.

Lemma run_preserves frames : preserves_under clickable (run frames).
Proof.
  induction frames as [|events frames IH]; simpl.
  - intros self Hwf HP. by exists self.
  - intros self Hwf HP. unfold bind at 1, gets at 1.
    destruct (window_alive self); [|by exists self].
    by apply (preserves_bind clickable (run_frame events) (fun _ => run frames));
      [apply run_frame_preserves| | |].
Qed.

Lemma init_run gs cs :
  0 <= gs * cs -> gs * cs + TOOLBAR_HEIGHT <= C_INT_MAX ->
  init gs cs
  = Ok (mkGame gs cs (gs * cs) (gs * cs + TOOLBAR_HEIGHT)
          (tabulate gs (fun _ _ => DEAD)) true false
          [ ("Start"%string, mkRect 10 5 80 25);
            ("Pause"%string, mkRect 100 5 80 25);
            ("End"%string, mkRect 190 5 80 25) ]).
Proof.
  intros H Hmax. unfold init, display_set_mode, TOOLBAR_HEIGHT in *.
  destruct (Z.ltb_spec (gs * cs) 0); [lia|].
  destruct (Z.ltb_spec (gs * cs + 30) 0); [lia|].
  destruct (Z.ltb_spec C_INT_MAX (gs * cs)); [lia|].
  destruct (Z.ltb_spec C_INT_MAX (gs * cs + 30)); [lia|]. done.
Qed.


(** The object the constructor returns, when it returns one. *)
Lemma init_returns gs cs self :
  init gs cs = Ok self ->
  self = mkGame gs cs (gs * cs) (gs * cs + TOOLBAR_HEIGHT)
           (tabulate gs (fun _ _ => DEAD)) true false
           [ ("Start"%string, mkRect 10 5 80 25);
             ("Pause"%string, mkRect 100 5 80 25);
             ("End"%string, mkRect 190 5 80 25) ].
Proof.
  unfold init. destruct (display_set_mode _ _); [|done].
  intros H. injection H as <-. done.
Qed.

(** C6: an object the constructor returns for a positive grid size N has
    a grid that is an N x N matrix of cells that are each 0 (DEAD) or 1
    (ALIVE); start, pause, end, the generation step, the step of the main
    loop, a click on the grid and the whole main loop over any batches of
    events return and leave the grid such a matrix of the same N. *)
Theorem grid_invariant :
  (forall gs cs self, 1 <= gs -> init gs cs = Ok self ->
     grid_size self = gs ∧ well_formed self) ∧
  preserves start_simulation ∧
  preserves pause_simulation ∧
  preserves end_simulation ∧
  preserves update_grid ∧
  preserves tick ∧
  (forall x y, preserves_under clickable (handle_grid_click x y)) ∧
  (forall pos, preserves_under clickable (handle_mouse_click pos)) ∧
  (forall frames, preserves_under clickable (run frames)).
Proof.
  split.
  { intros gs cs self Hgs Hinit. rewrite (init_returns gs cs self Hinit).
    split; [done|]. apply grid_inv_clear. simpl. lia. }
  split; [apply start_simulation_preserves, stable_true|].
  split; [apply pause_simulation_preserves, stable_true|].
  split; [apply end_simulation_preserves, stable_true|].
  split; [apply update_grid_preserves, stable_true|].
  split; [apply tick_preserves, stable_true|].
  split; [apply handle_grid_click_preserves|].
  split; [intros pos; apply (handle_event_preserves (MOUSEBUTTONDOWN pos))|].
  apply run_preserves.
Qed.



(** * Instances

    Each theorem that has a hypothesis is applied to a concrete object:
    a 5 x 5 object with a glider, running, or a 6 x 6 object with a
    blinker, stopped. *)

(** C1 at the glider: the next generation, and the object untouched. *)
Lemma apply_rules_next_generation_witness :
  1 <= grid_size glider_game ∧ well_formed glider_game ∧
  exists new_grid,
    apply_rules glider_game = Ok (new_grid, glider_game) ∧
    new_grid = [ [0; 0; 0; 0; 0];
                 [1; 0; 1; 0; 0];
                 [0; 1; 1; 0; 0];
                 [0; 1; 0; 0; 0];
                 [0; 0; 0; 0; 0] ].
Proof.
  split; [simpl; lia|]. split; [compute_done|].
  destruct (apply_rules_next_generation glider_game) as (g & Hrun & Hg & _).
  - simpl; lia.
  - compute_done.
  - exists g. split; [exact Hrun|]. rewrite Hg. vm_compute. reflexivity.
Defined.

(** C2 at the glider: the cell (1, 1) has five alive neighbours. *)
Lemma count_neighbors_moore_witness :
  well_formed glider_game ∧
  exists k, count_neighbors 1 1 glider_game = Ok (k, glider_game) ∧
            0 <= k <= 8 ∧ k = 5.
Proof.
  split; [compute_done|].
  destruct (count_neighbors_moore glider_game 1 1) as (k & Hrun & Hb & Hk).
  - simpl; lia.
  - compute_done.
  - simpl; lia.
  - simpl; lia.
  - exists k. split; [exact Hrun|]. split; [exact Hb|].
    rewrite Hk. vm_compute. reflexivity.
Defined.

(** C9 at the glider: the count at (-7, 12) is the count at (3, 2). *)
Lemma count_neighbors_periodic_witness :
  shaped glider_game ∧
  exists k, count_neighbors (-7) 12 glider_game = Ok (k, glider_game) ∧
            count_neighbors 3 2 glider_game = Ok (k, glider_game).
Proof.
  split; [compute_done|].
  apply (count_neighbors_periodic glider_game (-7) 12).
  - simpl; lia.
  - compute_done.
Defined.

(** C3: stopped at the blinker, running at the glider. *)
Lemma tick_stopped_running_witness :
  tick blinker_game = Ok (tt, blinker_game) ∧
  exists new_grid,
    apply_rules glider_game = Ok (new_grid, glider_game) ∧
    tick glider_game = Ok (tt, with_grid new_grid glider_game).
Proof.
  split.
  - apply (proj1 (tick_stopped_running blinker_game)). reflexivity.
  - apply (proj2 (tick_stopped_running glider_game)).
    + reflexivity.
    + compute_done.
Defined.

(** C4 at the running glider. *)
Lemma end_simulation_clears_witness :
  0 <= grid_size glider_game ∧
  exists self',
    end_simulation glider_game = Ok (tt, self') ∧
    is_running self' = false ∧
    grid_size self' = grid_size glider_game ∧
    grid self' = replicate (Z.to_nat (grid_size glider_game))
                           (replicate (Z.to_nat (grid_size glider_game)) DEAD) ∧
    shape (grid_size glider_game) (grid self').
Proof.
  split; [simpl; lia|].
  apply (end_simulation_clears glider_game). simpl; lia.
Defined.


(** C6: the 5 x 5 object the constructor builds, and the main loop run
    on the glider over a click, a press of no button and a quit. *)
Lemma grid_invariant_witness :
  (exists self, init 5 15 = Ok self ∧ grid_size self = 5 ∧ well_formed self) ∧
  exists self',
    run [ [MOUSEBUTTONDOWN (20, 50)]; [OTHER; QUIT]; [] ] glider_game
    = Ok (tt, self') ∧
    grid_size self' = grid_size glider_game ∧ well_formed self'.
Proof.
  destruct grid_invariant as (Hinit & _ & _ & _ & _ & _ & _ & _ & Hrun).
  split.
  - eexists. split; [reflexivity|]. apply (Hinit 5 15); [lia|reflexivity].
  - destruct (Hrun [ [MOUSEBUTTONDOWN (20, 50)]; [OTHER; QUIT]; [] ]
                   glider_game)
      as (self' & H1 & H2 & H3 & _).
    + compute_done.
    + unfold clickable. simpl. lia.
    + exists self'. split; [exact H1|]. split; [exact H2|exact H3].
Defined.

(** C7: two clicks at pixel (20, 50), the cell (1, 1) of the glider. *)
Lemma toggle_twice_witness :
  shaped glider_game ∧ cell_size glider_game <> 0 ∧
  (handle_grid_click 20 50 ;;; handle_grid_click 20 50) glider_game
  = Ok (tt, glider_game).
Proof.
  split; [compute_done|]. split; [simpl; lia|].
  apply (toggle_twice glider_game 20 50).
  - compute_done.
  - simpl; lia.
  - reflexivity.
Defined.

(** C8 at the 6 x 6 blinker. *)
Lemma blinker_period_two_witness :
  apply_rules blinker_game = Ok (blinker_v 6 2 3, blinker_game) ∧
  apply_rules (with_grid (blinker_v 6 2 3) blinker_game)
  = Ok (blinker_h 6 2 3, with_grid (blinker_v 6 2 3) blinker_game) ∧
  (update_grid ;;; update_grid) blinker_game = Ok (tt, blinker_game).
Proof.
  apply (blinker_period_two blinker_game 6 2 3).
  - lia.
  - lia.
  - lia.
  - reflexivity.
  - reflexivity.
Defined.

(** C10: a click at pixel (20, 50) of the glider lands on the cell
    (1, 1); a click at pixel (1000, 50) lands on no cell. *)
Lemma handle_grid_click_frame_witness :
  (exists self',
     handle_grid_click 20 50 glider_game = Ok (tt, self') ∧
     cell_at (grid self') 1 1 = 1 ∧
     self' = with_grid (grid self') glider_game) ∧
  handle_grid_click 1000 50 glider_game = Ok (tt, glider_game).
Proof.
  split.
  - pose proof (handle_grid_click_frame glider_game 20 50) as H.
    cbv zeta in H. destruct H as [Hin _].
    + compute_done.
    + simpl; lia.
    + destruct Hin as (self' & H1 & H2 & _ & _ & _ & _ & H3); [reflexivity|].
      exists self'. split; [exact H1|]. split; [exact H2|exact H3].
  - pose proof (handle_grid_click_frame glider_game 1000 50) as H.
    cbv zeta in H. destruct H as [_ Hout].
    + compute_done.
    + simpl; lia.
    + apply Hout. reflexivity.
Defined.

(** * Further properties *)

(** ** The toolbar *)

(** X1: with the three buttons the constructor installs, a click in the
    toolbar strip ([y < 30]) starts the simulation for [10 <= x < 90],
    pauses it for [100 <= x < 180] and ends it for [190 <= x < 270],
    each for [5 <= y] only; any other click in the strip changes
    nothing. *)
Theorem toolbar_hit_map (self : GameOfLife) (x y : Z) :
  initialize_buttons self = Ok (buttons self, self) ->
  y < TOOLBAR_HEIGHT ->
  handle_mouse_click (x, y) self
  = if (5 <=? y) && ((10 <=? x) && (x <? 90)) then start_simulation self
    else if (5 <=? y) && ((100 <=? x) && (x <? 180)) then pause_simulation self
    else if (5 <=? y) && ((190 <=? x) && (x <? 270)) then end_simulation self
    else Ok (tt, self).
Proof.
  intros Hb Hy. injection Hb as Hb.
  unfold handle_mouse_click, TOOLBAR_HEIGHT in *.
  destruct (Z.ltb_spec y 30); [|lia].
  unfold handle_toolbar_click, bind, gets. rewrite <- Hb.
  change (2 * BUTTON_WIDTH_PADDING + BUTTON_WIDTH) with 100.
  change (3 * BUTTON_WIDTH_PADDING + 2 * BUTTON_WIDTH) with 190.
  unfold toolbar_loop, collidepoint, BUTTON_WIDTH_PADDING,
    BUTTON_HEIGHT_PADDING, BUTTON_WIDTH, BUTTON_HEIGHT. simpl.
  change (10 + 80) with 90. change (100 + 80) with 180.
  change (190 + 80) with 270. change (5 + 25) with 30.
  destruct (Z.leb_spec 5 y), (Z.leb_spec 10 x), (Z.ltb_spec x 90),
           (Z.leb_spec 100 x), (Z.ltb_spec x 180),
           (Z.leb_spec 190 x), (Z.ltb_spec x 270), (Z.ltb_spec y 30);
    simpl; try lia; reflexivity.
Qed.

(** ** Pixels and cells *)

Lemma div_in_range a cs n :
  0 < cs -> (0 <= a / cs < n <-> 0 <= a < n * cs).
Proof.
  intros Hcs. pose proof (Z.div_mod a cs ltac:(lia)) as Hd.
  pose proof (Z.mod_pos_bound a cs Hcs) as Hm. split; intros H; nia.
Qed.

(** X2: with a positive cell size, a click toggles a cell exactly when
    its pixel lies in the square of the window below the toolbar,
    [0 <= x < N * cell_size] and [30 <= y < 30 + N * cell_size]; the
    cell is then [((y - 30) // cell_size, x // cell_size)].  Every other
    click leaves the object as it is. *)
Theorem click_area (self : GameOfLife) (x y : Z) :
  shaped self -> 0 < cell_size self ->
  handle_grid_click x y self
  = if (0 <=? x) && (x <? grid_size self * cell_size self) &&
       ((TOOLBAR_HEIGHT <=? y) &&
        (y <? TOOLBAR_HEIGHT + grid_size self * cell_size self))
    then Ok (tt, with_grid
                   (set_cell (grid self) (click_row self y) (click_col self x)
                      (1 - cell_at (grid self) (click_row self y)
                                               (click_col self x))) self)
    else Ok (tt, self).
Proof.
  intros Hs Hcs.
  pose proof (div_in_range x (cell_size self) (grid_size self) Hcs) as Hx.
  pose proof (div_in_range (y - TOOLBAR_HEIGHT) (cell_size self)
                (grid_size self) Hcs) as Hy.
  destruct (in_grid (grid_size self) (click_row self y) (click_col self x))
    eqn:Hin.
  - rewrite handle_grid_click_in by (done || lia).
    apply in_grid_true in Hin as [Hr Hc]. unfold click_row, click_col in *.
    destruct (Z.leb_spec 0 x), (Z.ltb_spec x (grid_size self * cell_size self)),
      (Z.leb_spec TOOLBAR_HEIGHT y),
      (Z.ltb_spec y (TOOLBAR_HEIGHT + grid_size self * cell_size self));
      simpl; (done || lia).
  - rewrite handle_grid_click_out by (done || lia).
    destruct (Z.leb_spec 0 x), (Z.ltb_spec x (grid_size self * cell_size self)),
      (Z.leb_spec TOOLBAR_HEIGHT y),
      (Z.ltb_spec y (TOOLBAR_HEIGHT + grid_size self * cell_size self));
      simpl; try done.
    assert (in_grid (grid_size self) (click_row self y) (click_col self x)
            = true); [|congruence].
    apply in_grid_true. unfold click_row, click_col. lia.
Qed.

(** ** [draw_grid] *)

Lemma foldl_snoc_bind {A B : Type} (F : A -> list B) (l : list A) (s : list B) :
  foldl (fun s x => s ++ F x) s l = s ++ (l ≫= F).
Proof.
  revert s. induction l as [|x l IH]; intros s.
  - simpl. by rewrite app_nil_r.
  - rewrite bind_cons, app_assoc. apply IH.
Qed.

Lemma draw_cell_run self row col screen :
  shaped self -> 0 <= row < grid_size self -> 0 <= col < grid_size self ->
  (cs <- gets cell_size ;;
   let rect :=
     mkRect (col * cs + FILL_PADDING)
            (row * cs + FILL_PADDING + TOOLBAR_HEIGHT)
            (cs - FILL_PADDING)
            (cs - FILL_PADDING) in
   g <- gets grid ;;
   gr <- py_getitem g row ;;
   v <- py_getitem gr col ;;
   let screen :=
     if v =? 1 then screen ++ [DrawRect WHITE rect 0] else screen in
   ret (screen ++ [DrawRect WHITE rect 1])) self
  = Ok (screen ++ cell_cmds self row col, self).
Proof.
  intros Hs Hr Hc. unfold bind at 1, gets at 1. unfold bind at 1, gets at 1.
  destruct (shape_cell _ _ _ _ Hs Hr Hc) as (gr & Hg & Hv).
  rewrite (bind_ok _ _ _ _ _ (py_getitem_in_range _ _ _ self (proj1 Hr) Hg)).
  rewrite (bind_ok _ _ _ _ _ (py_getitem_in_range _ _ _ self (proj1 Hc) Hv)).
  unfold ret, cell_cmds, cell_rect. f_equal. f_equal.
  destruct (cell_at (grid self) row col =? 1); simpl.
  - by rewrite <- app_assoc.
  - done.
Qed.

Lemma draw_grid_run self :
  shaped self -> draw_grid self = Ok (grid_cmds self, self).
Proof.
  intros Hs. unfold draw_grid, grid_cmds.
  unfold bind at 1, gets at 1. unfold bind at 1, gets at 1.
  unfold bind at 1, gets at 1.
  rewrite (for_each_pure _
    (fun screen row =>
       screen ++ (py_range (grid_size self) ≫= fun col => cell_cmds self row col))).
  - by rewrite foldl_snoc_bind.
  - intros row screen Hrow. apply elem_of_seqZ in Hrow.
    unfold bind at 1, gets at 1.
    rewrite (for_each_pure _ (fun screen col => screen ++ cell_cmds self row col)).
    + by rewrite foldl_snoc_bind.
    + intros col screen' Hcol. apply elem_of_seqZ in Hcol.
      apply draw_cell_run; (done || lia).
Qed.

Lemma cell_rect_click self row col x y :
  0 < cell_size self ->
  collidepoint (cell_rect self row col) x y = true ->
  click_row self y = row ∧ click_col self x = col.
Proof.
  intros Hcs. unfold collidepoint, cell_rect, click_row, click_col,
    FILL_PADDING, TOOLBAR_HEIGHT. simpl.
  destruct (Z.leb_spec (col * cell_size self + 1) x),
    (Z.ltb_spec x (col * cell_size self + 1 + (cell_size self - 1))),
    (Z.leb_spec (row * cell_size self + 1 + 30) y),
    (Z.ltb_spec y (row * cell_size self + 1 + 30 + (cell_size self - 1)));
    simpl; try done. intros _.
  split; symmetry.
  - apply (Z.div_unique_pos _ _ _ (y - 30 - row * cell_size self)); lia.
  - apply (Z.div_unique_pos _ _ _ (x - col * cell_size self)); lia.
Qed.

Lemma filled_in_grid_cmds self rect :
  DrawRect WHITE rect 0 ∈ grid_cmds self <->
  exists row col,
    0 <= row < grid_size self ∧ 0 <= col < grid_size self ∧
    cell_at (grid self) row col = ALIVE ∧ rect = cell_rect self row col.
Proof.
  unfold grid_cmds. rewrite elem_of_cons. split.
  - intros [?|H]; [done|].
    apply list_elem_of_bind in H as (row & H & Hrow).
    apply list_elem_of_bind in H as (col & H & Hcol).
    apply elem_of_seqZ in Hrow, Hcol. exists row, col.
    split; [lia|]. split; [lia|]. unfold cell_cmds in H.
    apply elem_of_app in H as [H|H].
    + destruct (Z.eqb_spec (cell_at (grid self) row col) 1) as [Hv|Hv].
      * apply list_elem_of_singleton in H. injection H as ->. done.
      * by apply elem_of_nil in H.
    + apply list_elem_of_singleton in H. done.
  - intros (row & col & Hr & Hc & Hv & ->). right.
    apply list_elem_of_bind. exists row. split; [|apply elem_of_seqZ; lia].
    apply list_elem_of_bind. exists col. split; [|apply elem_of_seqZ; lia].
    unfold cell_cmds. rewrite Hv. simpl. by left.
Qed.

(** X3: on an N x N grid [draw_grid] raises nothing and leaves the
    object alone; after clearing the grid area it draws, cell by cell in
    row order, a filled square for an ALIVE cell and then the border of
    the cell. *)
Theorem draw_grid_commands (self : GameOfLife) :
  shaped self ->
  draw_grid self
  = Ok (ScreenFill BLUE (mkRect 0 TOOLBAR_HEIGHT (width self) (height self))
        :: (py_range (grid_size self) ≫= fun row =>
            py_range (grid_size self) ≫= fun col =>
            (if cell_at (grid self) row col =? 1
             then [DrawRect WHITE (cell_rect self row col) 0] else [])
            ++ [DrawRect WHITE (cell_rect self row col) 1]),
        self).
Proof. apply draw_grid_run. Qed.

(** X4: with a positive cell size, the filled squares [draw_grid] paints
    are those of the ALIVE cells, and a click on any pixel of a painted
    square is mapped by [handle_grid_click] to the cell the square was
    painted for. *)
Theorem painted_squares (self : GameOfLife) :
  shaped self -> 0 < cell_size self ->
  exists cmds,
    draw_grid self = Ok (cmds, self) ∧
    (forall row col,
       0 <= row < grid_size self -> 0 <= col < grid_size self ->
       cell_at (grid self) row col = ALIVE ->
       DrawRect WHITE (cell_rect self row col) 0 ∈ cmds) ∧
    (forall rect x y,
       DrawRect WHITE rect 0 ∈ cmds -> collidepoint rect x y = true ->
       in_grid (grid_size self) (click_row self y) (click_col self x) = true ∧
       cell_at (grid self) (click_row self y) (click_col self x) = ALIVE ∧
       rect = cell_rect self (click_row self y) (click_col self x)).
Proof.
  intros Hs Hcs. exists (grid_cmds self). split; [by apply draw_grid_run|].
  split.
  - intros row col Hr Hc Hv. apply filled_in_grid_cmds. by exists row, col.
  - intros rect x y Hin Hhit.
    apply filled_in_grid_cmds in Hin as (row & col & Hr & Hc & Hv & ->).
    destruct (cell_rect_click self row col x y Hcs Hhit) as [-> ->].
    split; [by apply in_grid_true|done].
Qed.

(** ** What no method changes *)

Lemma same_config_refl self : same_config self self.
Proof. by repeat split. Qed.

Lemma same_config_trans s1 s2 s3 :
  same_config s1 s2 -> same_config s2 s3 -> same_config s1 s3.
Proof.
  intros (?&?&?&?&?&?) (?&?&?&?&?&?).
  repeat split; try congruence. auto.
Qed.

Lemma keeps_unchanged {A : Type} (m : M A) :
  (forall self a self', m self = Ok (a, self') -> self' = self) ->
  keeps_config m.
Proof. intros H self a self' Hm. rewrite (H _ _ _ Hm). apply same_config_refl. Qed.

Lemma keeps_ret {A : Type} (a : A) : keeps_config (ret a).
Proof. apply keeps_unchanged. intros ??? [= _ ->]. done. Qed.

Lemma keeps_raise {A : Type} e : keeps_config (@raise A e).
Proof. intros ???. done. Qed.

Lemma keeps_gets {A : Type} (f : GameOfLife -> A) : keeps_config (gets f).
Proof. apply keeps_unchanged. intros ??? [= _ ->]. done. Qed.

Lemma keeps_py_mod a b : keeps_config (py_mod a b).
Proof. unfold py_mod. destruct (b =? 0); [apply keeps_raise|apply keeps_ret]. Qed.

Lemma keeps_py_floordiv a b : keeps_config (py_floordiv a b).
Proof.
  unfold py_floordiv. destruct (b =? 0); [apply keeps_raise|apply keeps_ret].
Qed.

Lemma keeps_py_getitem {A : Type} (l : list A) i : keeps_config (py_getitem l i).
Proof.
  unfold py_getitem. destruct (py_index l i); [|apply keeps_raise].
  destruct (l !! _); [apply keeps_ret|apply keeps_raise].
Qed.

Lemma keeps_py_setitem {A : Type} (l : list A) i x :
  keeps_config (py_setitem l i x).
Proof.
  unfold py_setitem. destruct (py_index l i); [apply keeps_ret|apply keeps_raise].
Qed.

Lemma keeps_with_grid g : keeps_config (modify (with_grid g)).
Proof. intros ??? [= _ <-]. by repeat split. Qed.

Lemma keeps_with_is_running b : keeps_config (modify (with_is_running b)).
Proof. intros ??? [= _ <-]. by repeat split. Qed.

Lemma keeps_window_closed : keeps_config (modify (with_window_alive false)).
Proof. intros ??? [= _ <-]. by repeat split. Qed.

Lemma keeps_bind {A B : Type} (m : M A) (k : A -> M B) :
  keeps_config m -> (forall a, keeps_config (k a)) -> keeps_config (bind m k).
Proof.
  intros Hm Hk self b self'. unfold bind.
  destruct (m self) as [[a self1]|e] eqn:Hrun; [|done].
  intros Hrun'. eapply same_config_trans; [by eapply Hm|by eapply Hk].
Qed.

Lemma keeps_for_each {A S : Type} (l : list A) (body : A -> S -> M S) s :
  (forall x t, keeps_config (body x t)) -> keeps_config (for_each l body s).
Proof.
  intros Hb. revert s. induction l as [|x l IH]; intros s; simpl.
  - apply keeps_ret.
  - apply keeps_bind; [apply Hb|apply IH].
Qed.

Create HintDb config.

#[local] Hint Resolve keeps_ret keeps_raise keeps_gets keeps_py_mod
  keeps_py_floordiv keeps_py_getitem keeps_py_setitem keeps_with_grid
  keeps_with_is_running keeps_window_closed : config.

Ltac keeps_step :=
  match goal with
  | |- keeps_config (bind _ _) => apply keeps_bind; [|intros ?]
  | |- keeps_config (for_each _ _ _) => apply keeps_for_each; intros ? ?
  | |- keeps_config (if ?b then _ else _) => destruct b
  | |- keeps_config (match ?p with (_, _) => _ end) => destruct p
  | |- keeps_config ((match ?p with (_, _) => _ end) _) => destruct p
  | |- keeps_config _ => solve [auto with config]
  end.

Ltac keeps := repeat (cbv beta match; keeps_step).

Lemma keeps_make_clear_grid : keeps_config make_clear_grid.
Proof. unfold make_clear_grid. keeps. Qed.

Lemma keeps_start_simulation : keeps_config start_simulation.
Proof. unfold start_simulation. keeps. Qed.

Lemma keeps_pause_simulation : keeps_config pause_simulation.
Proof. unfold pause_simulation. keeps. Qed.

#[local] Hint Resolve keeps_make_clear_grid keeps_start_simulation
  keeps_pause_simulation : config.

Lemma keeps_end_simulation : keeps_config end_simulation.
Proof. unfold end_simulation. keeps. Qed.

Lemma keeps_handle_grid_click x y : keeps_config (handle_grid_click x y).
Proof. unfold handle_grid_click. keeps. Qed.

#[local] Hint Resolve keeps_end_simulation keeps_handle_grid_click : config.

Lemma keeps_toolbar_loop bs x y : keeps_config (toolbar_loop bs x y).
Proof.
  induction bs as [|[text rect] bs IH]; simpl; [apply keeps_ret|].
  keeps.
Qed.

#[local] Hint Resolve keeps_toolbar_loop : config.

Lemma keeps_handle_mouse_click pos : keeps_config (handle_mouse_click pos).
Proof. unfold handle_mouse_click, handle_toolbar_click. keeps. Qed.

Lemma keeps_count_neighbors row col : keeps_config (count_neighbors row col).
Proof. unfold count_neighbors. keeps. Qed.

Lemma keeps_store_cell ng row col v : keeps_config (store_cell ng row col v).
Proof. unfold store_cell. keeps. Qed.

#[local] Hint Resolve keeps_handle_mouse_click keeps_count_neighbors
  keeps_store_cell : config.

Lemma keeps_apply_rules : keeps_config apply_rules.
Proof. unfold apply_rules. keeps. Qed.

#[local] Hint Resolve keeps_apply_rules : config.

Lemma keeps_update_grid : keeps_config update_grid.
Proof. unfold update_grid. keeps. Qed.

#[local] Hint Resolve keeps_update_grid : config.

Lemma keeps_tick : keeps_config tick.
Proof. unfold tick. keeps. Qed.

Lemma keeps_handle_event ev : keeps_config (handle_event ev).
Proof. destruct ev; simpl; keeps. Qed.

#[local] Hint Resolve keeps_tick keeps_handle_event : config.

Lemma keeps_run_frame events : keeps_config (run_frame events).
Proof. unfold run_frame. keeps. Qed.

#[local] Hint Resolve keeps_run_frame : config.

Lemma keeps_run frames : keeps_config (run frames).
Proof. induction frames as [|events frames IH]; simpl; keeps. Qed.

(** ** The main loop *)


Lemma events_quit events self u self' :
  QUIT ∈ events ->
  for_each events (fun ev _ => handle_event ev) tt self = Ok (u, self') ->
  window_alive self' = false.
Proof.
  revert self. induction events as [|ev events IH]; intros self Hin Hrun.
  - by apply elem_of_nil in Hin.
  - simpl in Hrun. unfold bind in Hrun.
    destruct (handle_event ev self) as [[[] self1]|e] eqn:Hev; [|done].
    apply elem_of_cons in Hin as [<-|Hin].
    + injection Hev as <-.
      assert (Hk : keeps_config
                (for_each events (fun ev _ => handle_event ev) tt)).
      { apply keeps_for_each. intros. apply keeps_handle_event. }
      by apply (Hk _ _ _ Hrun).
    + by apply (IH self1).
Qed.

Lemma run_frame_quit events self u self' :
  QUIT ∈ events -> run_frame events self = Ok (u, self') ->
  window_alive self' = false.
Proof.
  intros Hin. unfold run_frame, bind.
  destruct (for_each _ _ _ self) as [[[] self1]|e] eqn:Hev; [|done].
  intros Htick. apply (keeps_tick _ _ _ Htick).
  by apply (events_quit events self tt).
Qed.

Lemma run_quit_closed frames self u self' :
  (exists events, events ∈ frames ∧ QUIT ∈ events) ->
  run frames self = Ok (u, self') -> window_alive self' = false.
Proof.
  revert self. induction frames as [|events frames IH];
    intros self (batch & Hin & Hquit) Hrun.
  - by apply elem_of_nil in Hin.
  - simpl in Hrun. unfold bind at 1, gets at 1 in Hrun.
    destruct (window_alive self) eqn:Hw.
    + unfold bind in Hrun.
      destruct (run_frame events self) as [[[] self1]|e] eqn:Hframe; [|done].
      apply elem_of_cons in Hin as [->|Hin].
      * apply (keeps_run frames self1 u self' Hrun).
        by apply (run_frame_quit events self tt).
      * apply (IH self1); [|done]. by exists batch.
    + by injection Hrun as _ <-.
Qed.

(** X5: whatever the events and whatever the object, the object reached
    after any number of frames has the grid size, the cell size, the
    window dimensions and the buttons it started with, and a closed
    window has not been reopened.  On an object with an N x N grid of
    DEAD and ALIVE cells and a cell size other than 0, once a batch
    holds a QUIT the loop ends without an exception, with those
    attributes as they were and the window closed. *)
Theorem run_keeps_config (frames : list (list event)) (self : GameOfLife) :
  (forall self', run frames self = Ok (tt, self') -> same_config self self') ∧
  (well_formed self -> clickable self ->
   (exists events, events ∈ frames ∧ QUIT ∈ events) ->
   exists self',
     run frames self = Ok (tt, self') ∧ same_config self self' ∧
     window_alive self' = false).
Proof.
  split.
  - intros self'. apply keeps_run.
  - intros Hwf Hcs Hquit.
    destruct (run_preserves frames self Hwf Hcs) as (self' & Hrun & _).
    exists self'. split; [done|]. split.
    + by apply (keeps_run frames self tt).
    + by apply (run_quit_closed frames self tt).
Qed.


Lemma with_grid_with_grid g1 g2 self :
  with_grid g2 (with_grid g1 self) = with_grid g2 self.
Proof. done. Qed.

Lemma shape_next_generation n g : 0 <= n -> shape n (next_generation n g).
Proof. intros Hn. by apply shape_tabulate. Qed.

Lemma run_idle_running (k : nat) self :
  shaped self -> window_alive self = true -> is_running self = true ->
  run (replicate k []) self
  = Ok (tt, with_grid (generations (grid_size self) k (grid self)) self).
Proof.
  revert self. induction k as [|k IH]; intros self Hs Hw Hr.
  - simpl. unfold ret. by rewrite with_grid_same.
  - simpl. unfold bind at 1, gets at 1. rewrite Hw.
    assert (Hframe : run_frame [] self
              = Ok (tt, with_grid (next_generation (grid_size self) (grid self))
                                  self)).
    { unfold run_frame. simpl. unfold bind at 1, ret at 1.
      unfold tick, bind at 1, gets at 1. rewrite Hr.
      by apply update_grid_run. }
    rewrite (bind_ok _ _ _ _ _ Hframe).
    rewrite IH; [| |done|done].
    + unfold generations. simpl. by rewrite <- Nat.iter_succ_r.
    + apply shape_next_generation. destruct Hs as [Hl _]. lia.
Qed.

Lemma run_idle_stopped (k : nat) self :
  is_running self = false -> run (replicate k []) self = Ok (tt, self).
Proof.
  intros Hr. induction k as [|k IH]; simpl; [done|].
  unfold bind at 1, gets at 1. destruct (window_alive self); [|done].
  assert (Hframe : run_frame [] self = Ok (tt, self)).
  { unfold run_frame. simpl. unfold bind at 1, ret at 1.
    unfold tick, bind, gets. by rewrite Hr. }
  by rewrite (bind_ok _ _ _ _ _ Hframe).
Qed.

(** X7: [k] frames without events advance a running simulation by
    exactly [k] generations and change nothing else; they leave a stopped
    simulation as it is. *)
Theorem idle_frames (k : nat) (self : GameOfLife) :
  shaped self -> window_alive self = true ->
  run (replicate k []) self
  = Ok (tt, if is_running self
            then with_grid (Nat.iter k (next_generation (grid_size self))
                                     (grid self)) self
            else self).
Proof.
  intros Hs Hw. destruct (is_running self) eqn:Hr.
  - by apply run_idle_running.
  - by apply run_idle_stopped.
Qed.

(** X8: the program, [GameOfLife(grid_size=50, cell_size=15).run()],
    raises no exception whatever events arrive: it ends with a 50 x 50
    grid of DEAD and ALIVE cells and the cell size 15. *)
Theorem main_never_raises (frames : list (list event)) :
  exists game,
    main frames = Ok game ∧
    grid_size game = 50 ∧ cell_size game = 15 ∧ well_formed game.
Proof.
  unfold main.
  rewrite init_run
    by (unfold GRID_SIZE, CELL_SIZE, TOOLBAR_HEIGHT, C_INT_MAX; lia).
  set (game := mkGame _ _ _ _ _ _ _ _).
  assert (Hwf : well_formed game).
  { apply grid_inv_clear. simpl. unfold GRID_SIZE. lia. }
  assert (Hcs : clickable game) by (unfold clickable; simpl; done).
  destruct (run_preserves frames game Hwf Hcs) as (game' & Hrun & Hn & Hwf' & _).
  exists game'. rewrite Hrun. split; [done|]. split; [done|].
  split; [|done]. by destruct (keeps_run frames game tt game' Hrun) as (_ & -> & _).
Qed.

(** ** The torus has no distinguished cell *)

Lemma neighbor_cells_shift n g di dj i j :
  1 <= n -> 0 <= i < n -> 0 <= j < n ->
  neighbor_cells n (shift n g di dj) i j
  = neighbor_cells n g ((i + di) mod n) ((j + dj) mod n).
Proof.
  intros Hn Hi Hj. unfold neighbor_cells. apply list_fmap_ext.
  intros _ [dr dc] _. unfold shift.
  rewrite cell_at_tabulate by (apply Z.mod_pos_bound; lia).
  rewrite !Zplus_mod_idemp_l. f_equal; f_equal; lia.
Qed.

Lemma cell_at_shift n g di dj i j :
  0 <= i < n -> 0 <= j < n ->
  cell_at (shift n g di dj) i j = cell_at g ((i + di) mod n) ((j + dj) mod n).
Proof. intros Hi Hj. unfold shift. by rewrite cell_at_tabulate. Qed.

Lemma next_generation_shift n g di dj :
  1 <= n ->
  next_generation n (shift n g di dj) = shift n (next_generation n g) di dj.
Proof.
  intros Hn.
  apply (grid_ext n); [apply shape_tabulate; lia|apply shape_tabulate; lia|].
  intros i j Hi Hj. rewrite cell_at_shift by done.
  unfold next_generation.
  rewrite !cell_at_tabulate by (done || apply Z.mod_pos_bound; lia).
  rewrite cell_at_shift by done.
  unfold neighbor_sum. by rewrite neighbor_cells_shift.
Qed.

(** X9: the generation step commutes with moving the grid around the
    torus: if the grid is shifted by [di] rows and [dj] columns, indices
    wrapping modulo N, [apply_rules] returns the shifted result. *)
Theorem apply_rules_shift (self : GameOfLife) (di dj : Z) :
  shaped self -> 1 <= grid_size self ->
  let n := grid_size self in
  exists new_grid,
    apply_rules self = Ok (new_grid, self) ∧
    apply_rules (with_grid (shift n (grid self) di dj) self)
    = Ok (shift n new_grid di dj, with_grid (shift n (grid self) di dj) self).
Proof.
  intros Hs Hn n. eexists. split; [by apply apply_rules_run|].
  rewrite apply_rules_run.
  - simpl. fold n. by rewrite next_generation_shift.
  - apply shape_tabulate. lia.
Qed.

Lemma neighbor_sum_transpose n g i j :
  1 <= n -> 0 <= i < n -> 0 <= j < n ->
  neighbor_sum n (transpose n g) i j = neighbor_sum n g j i.
Proof.
  intros Hn Hi Hj. unfold neighbor_sum, neighbor_cells, DIRECTIONS, transpose.
  simpl. rewrite !cell_at_tabulate by (apply Z.mod_pos_bound; lia). lia.
Qed.

Lemma cell_at_transpose n g i j :
  0 <= i < n -> 0 <= j < n -> cell_at (transpose n g) i j = cell_at g j i.
Proof. intros Hi Hj. unfold transpose. by rewrite cell_at_tabulate. Qed.

Lemma next_generation_transpose n g :
  1 <= n ->
  next_generation n (transpose n g) = transpose n (next_generation n g).
Proof.
  intros Hn.
  apply (grid_ext n); [apply shape_tabulate; lia|apply shape_tabulate; lia|].
  intros i j Hi Hj. rewrite cell_at_transpose by done.
  unfold next_generation. rewrite !cell_at_tabulate by done.
  rewrite cell_at_transpose by done.
  by rewrite neighbor_sum_transpose.
Qed.

(** X10: the generation step commutes with exchanging rows and columns:
    on the transposed grid [apply_rules] returns the transposed result. *)
Theorem apply_rules_transpose (self : GameOfLife) :
  shaped self -> 1 <= grid_size self ->
  let n := grid_size self in
  exists new_grid,
    apply_rules self = Ok (new_grid, self) ∧
    apply_rules (with_grid (transpose n (grid self)) self)
    = Ok (transpose n new_grid, with_grid (transpose n (grid self)) self).
Proof.
  intros Hs Hn n. eexists. split; [by apply apply_rules_run|].
  rewrite apply_rules_run.
  - simpl. fold n. by rewrite next_generation_transpose.
  - apply shape_tabulate. lia.
Qed.

(** ** A toggle and the counts around it *)

Lemma foldl_add_from (l : list Z) (a : Z) :
  foldl Z.add a l = a + foldl Z.add 0 l.
Proof.
  revert a. induction l as [|v l IH]; intros a; simpl; [lia|].
  rewrite (IH (a + v)), (IH (0 + v)). lia.
Qed.

Lemma sum_set_cell n g i j v a b (ds : list (Z * Z)) :
  shape n g -> 1 <= n -> 0 <= i < n -> 0 <= j < n ->
  foldl Z.add 0
    ((fun '(dr, dc) =>
        cell_at (set_cell g i j v) ((a + dr) mod n) ((b + dc) mod n)) <$> ds)
  = foldl Z.add 0
      ((fun '(dr, dc) => cell_at g ((a + dr) mod n) ((b + dc) mod n)) <$> ds)
    + (v - cell_at g i j)
      * Z.of_nat (length (filter
          (fun '(dr, dc) => (a + dr) mod n = i ∧ (b + dc) mod n = j) ds)).
Proof.
  intros Hs Hn Hi Hj. induction ds as [|[dr dc] ds IH]; [simpl; lia|].
  rewrite !fmap_cons, filter_cons. cbn [foldl].
  rewrite (foldl_add_from _ (0 + _)), IH.
  rewrite (foldl_add_from _ (0 + cell_at g _ _)).
  rewrite (cell_at_set_cell n) by (done || apply Z.mod_pos_bound; lia).
  destruct (Z.eqb_spec ((a + dr) mod n) i) as [Hx|Hx],
           (Z.eqb_spec ((b + dc) mod n) j) as [Hy|Hy];
    case_decide; try (exfalso; tauto); simpl; try lia.
  rewrite Hx, Hy. lia.
Qed.

Lemma neighbor_sum_set_cell n g i j v a b :
  shape n g -> 1 <= n -> 0 <= i < n -> 0 <= j < n ->
  neighbor_sum n (set_cell g i j v) a b
  = neighbor_sum n g a b + (v - cell_at g i j) * hits n a b i j.
Proof. intros. unfold neighbor_sum, neighbor_cells, hits. by apply sum_set_cell. Qed.

(** X11: a click on the cell [(row, col)] changes the neighbour count of
    a cell [(a, b)] by the change of the clicked cell, times the number
    of the eight offsets that lead from [(a, b)] to [(row, col)] on the
    torus; the counts of all other cells stay as they were. *)
Theorem toggle_neighbor_counts (self : GameOfLife) (x y a b : Z) :
  shaped self -> cell_size self <> 0 ->
  in_grid (grid_size self) (click_row self y) (click_col self x) = true ->
  exists self' k k',
    handle_grid_click x y self = Ok (tt, self') ∧
    count_neighbors a b self = Ok (k, self) ∧
    count_neighbors a b self' = Ok (k', self') ∧
    k' = k + (1 - 2 * cell_at (grid self) (click_row self y) (click_col self x))
             * hits (grid_size self) a b (click_row self y) (click_col self x).
Proof.
  intros Hs Hcs Hin.
  pose proof (proj1 (in_grid_true _ _ _) Hin) as [Hr Hc].
  do 3 eexists. split; [by apply handle_grid_click_in|].
  split; [apply count_neighbors_run; (done || lia)|].
  split.
  - apply count_neighbors_run; [by apply shape_set_cell|simpl; lia].
  - simpl. rewrite (neighbor_sum_set_cell (grid_size self)) by (done || lia).
    lia.
Qed.

Lemma wrap_facts n i :
  3 <= n -> 0 <= i < n ->
  (i + 0) mod n = i ∧ (i + -1) mod n <> i ∧ (i + 1) mod n <> i ∧
  (n - 1 + 1) mod n = 0 ∧ (n - 1 + 0) mod n <> 0 ∧ (n - 1 + -1) mod n <> 0.
Proof.
  intros Hn Hi.
  rewrite (wrap_pred n (n - 1)), (wrap_succ n (n - 1)), (wrap_same n (n - 1)),
    wrap_pred, wrap_succ, wrap_same by lia.
  destruct (Z.eqb_spec (n - 1) 0), (Z.eqb_spec (n - 1) (n - 1)),
           (Z.eqb_spec i 0), (Z.eqb_spec i (n - 1)); lia.
Qed.

Ltac filter_hit :=
  rewrite filter_cons_True by (cbv beta match; split; (done || lia)).
Ltac filter_miss :=
  rewrite filter_cons_False
    by (cbv beta match; intros [? ?]; (done || lia)).

Lemma hits_below n c : 3 <= n -> 0 <= c < n -> hits n (n - 1) c 0 c = 1.
Proof.
  intros Hn Hc. unfold hits, DIRECTIONS.
  destruct (wrap_facts n c Hn Hc) as (Hc0 & Hcm & Hcp & Hnp & Hn0 & Hnm).
  do 6 filter_miss. filter_hit. filter_miss. done.
Qed.

Lemma hits_right n r : 3 <= n -> 0 <= r < n -> hits n r (n - 1) r 0 = 1.
Proof.
  intros Hn Hr. unfold hits, DIRECTIONS.
  destruct (wrap_facts n r Hn Hr) as (Hr0 & Hrm & Hrp & Hnp & Hn0 & Hnm).
  do 4 filter_miss. filter_hit. do 3 filter_miss. done.
Qed.

(** X12: the edges are joined.  On a grid of size N >= 3, a click on a
    cell of the top row changes the neighbour count of the bottom cell
    of the same column by exactly one, up if the clicked cell was DEAD
    and down if it was ALIVE; so does a click on a cell of the left
    column for the rightmost cell of the same row. *)
Theorem wraparound_count (self : GameOfLife) (x y : Z) :
  shaped self -> cell_size self <> 0 -> 3 <= grid_size self ->
  in_grid (grid_size self) (click_row self y) (click_col self x) = true ->
  let n := grid_size self in
  let v := cell_at (grid self) (click_row self y) (click_col self x) in
  exists self',
    handle_grid_click x y self = Ok (tt, self') ∧
    (click_row self y = 0 ->
     exists k, count_neighbors (n - 1) (click_col self x) self = Ok (k, self) ∧
               count_neighbors (n - 1) (click_col self x) self'
               = Ok (k + (1 - 2 * v), self')) ∧
    (click_col self x = 0 ->
     exists k, count_neighbors (click_row self y) (n - 1) self = Ok (k, self) ∧
               count_neighbors (click_row self y) (n - 1) self'
               = Ok (k + (1 - 2 * v), self')).
Proof.
  intros Hs Hcs Hn Hin n v.
  pose proof (proj1 (in_grid_true _ _ _) Hin) as [Hr Hc].
  eexists. split; [by apply handle_grid_click_in|].
  assert (Hs' : shaped (with_grid (set_cell (grid self) (click_row self y)
                          (click_col self x) (1 - v)) self))
    by (by apply shape_set_cell).
  split.
  - intros H0. eexists. split; [apply count_neighbors_run; (done || lia)|].
    rewrite count_neighbors_run by (done || (simpl; lia)). simpl.
    rewrite (neighbor_sum_set_cell (grid_size self)) by (done || lia).
    rewrite H0, hits_below by (done || lia). fold n.
    rewrite <- H0. fold v. f_equal. f_equal. lia.
  - intros H0. eexists. split; [apply count_neighbors_run; (done || lia)|].
    rewrite count_neighbors_run by (done || (simpl; lia)). simpl.
    rewrite (neighbor_sum_set_cell (grid_size self)) by (done || lia).
    rewrite H0, hits_right by (done || lia). fold n.
    rewrite <- H0. fold v. f_equal. f_equal. lia.
Qed.

(** ** Degenerate sizes *)

(** X13: an object of size 0, which the constructor does build, is
    inert but for [count_neighbors]: the generation step returns the
    empty grid whatever the grid holds, a click changes nothing, and
    [count_neighbors] raises [ZeroDivisionError] for every cell.  The
    generation step returns the empty grid for a negative size as
    well. *)
Theorem nonpositive_size (self : GameOfLife) :
  grid_size self <= 0 ->
  apply_rules self = Ok ([], self) ∧
  update_grid self = Ok (tt, with_grid [] self) ∧
  (cell_size self <> 0 ->
   forall x y, handle_grid_click x y self = Ok (tt, self)) ∧
  (grid_size self = 0 ->
   forall row col, count_neighbors row col self = Raise ZeroDivisionError).
Proof.
  intros Hn.
  assert (Hrun : apply_rules self = Ok ([], self)).
  { unfold apply_rules, bind, gets, py_range. by rewrite !seqZ_nil. }
  split; [done|]. split; [|split].
  - unfold update_grid. by rewrite (bind_ok _ _ _ _ _ Hrun).
  - intros Hcs x y. apply handle_grid_click_out; [done|].
    destruct (in_grid _ _ _) eqn:Hin; [|done].
    apply in_grid_true in Hin. lia.
  - intros H0 row col. unfold count_neighbors, DIRECTIONS. simpl.
    unfold bind, gets, py_mod. by rewrite H0.
Qed.

(** X14: on a 1 x 1 grid the cell is its own neighbour eight times:
    [count_neighbors] returns eight times its value, and the generation
    step leaves it DEAD, whether it was DEAD or ALIVE. *)
Theorem one_by_one (self : GameOfLife) (v : Z) :
  grid_size self = 1 -> grid self = [[v]] ->
  count_neighbors 0 0 self = Ok (8 * v, self) ∧
  (v = DEAD ∨ v = ALIVE -> apply_rules self = Ok ([[DEAD]], self)).
Proof.
  intros Hn Hg.
  assert (Hs : shaped self).
  { unfold shaped. rewrite Hn, Hg. split; [done|]. by repeat constructor. }
  split.
  - rewrite count_neighbors_run by (done || lia). rewrite Hn, Hg.
    f_equal. f_equal.
    change (neighbor_sum 1 [[v]] 0 0) with (0 + v + v + v + v + v + v + v + v).
    lia.
  - intros Hv. rewrite apply_rules_run by done. rewrite Hn, Hg.
    by destruct Hv as [-> | ->].
Qed.

(** X15: on a 2 x 2 grid every other cell is met twice or four times,
    so every count is even: the count at [(0, 0)] is twice the cell
    beside, plus twice the cell below, plus four times the cell
    across.  No DEAD cell of a 2 x 2 grid ever becomes ALIVE. *)
Theorem two_by_two (self : GameOfLife) (a b c d : Z) :
  grid_size self = 2 -> grid self = [[a; b]; [c; d]] ->
  count_neighbors 0 0 self = Ok (2 * b + 2 * c + 4 * d, self) ∧
  exists new_grid,
    apply_rules self = Ok (new_grid, self) ∧
    forall i j, 0 <= i < 2 -> 0 <= j < 2 ->
      cell_at (grid self) i j = DEAD -> cell_at new_grid i j = DEAD.
Proof.
  intros Hn Hg.
  assert (Hs : shaped self).
  { unfold shaped. rewrite Hn, Hg. split; [done|]. by repeat constructor. }
  split.
  - rewrite count_neighbors_run by (done || lia). rewrite Hn, Hg.
    f_equal. f_equal.
    change (neighbor_sum 2 [[a; b]; [c; d]] 0 0)
      with (0 + d + c + d + b + b + d + c + d).
    lia.
  - eexists. split; [by apply apply_rules_run|].
    intros i j Hi Hj. rewrite Hn, Hg. unfold next_generation.
    rewrite cell_at_tabulate by done. intros ->. unfold rule, DEAD. simpl.
    assert (Hcases : (i = 0 ∨ i = 1) ∧ (j = 0 ∨ j = 1)) by lia.
    destruct Hcases as [[-> | ->] [-> | ->]].
    + change (neighbor_sum 2 [[a; b]; [c; d]] 0 0)
        with (0 + d + c + d + b + b + d + c + d).
      by destruct (Z.eqb_spec (0 + d + c + d + b + b + d + c + d) 3); [lia|].
    + change (neighbor_sum 2 [[a; b]; [c; d]] 0 1)
        with (0 + c + d + c + a + a + c + d + c).
      by destruct (Z.eqb_spec (0 + c + d + c + a + a + c + d + c) 3); [lia|].
    + change (neighbor_sum 2 [[a; b]; [c; d]] 1 0)
        with (0 + b + a + b + d + d + b + a + b).
      by destruct (Z.eqb_spec (0 + b + a + b + d + d + b + a + b) 3); [lia|].
    + change (neighbor_sum 2 [[a; b]; [c; d]] 1 1)
        with (0 + a + b + a + c + c + a + b + a).
      by destruct (Z.eqb_spec (0 + a + b + a + c + c + a + b + a) 3); [lia|].
Qed.

(** ** Clicks in either order *)

Lemma set_cell_toggle_commute n g i1 j1 i2 j2 :
  shape n g -> 0 <= i1 < n -> 0 <= j1 < n -> 0 <= i2 < n -> 0 <= j2 < n ->
  let g1 := set_cell g i1 j1 (1 - cell_at g i1 j1) in
  let g2 := set_cell g i2 j2 (1 - cell_at g i2 j2) in
  set_cell g1 i2 j2 (1 - cell_at g1 i2 j2)
  = set_cell g2 i1 j1 (1 - cell_at g2 i1 j1).
Proof.
  intros Hs Hi1 Hj1 Hi2 Hj2 g1 g2.
  assert (Hs1 : shape n g1) by (by apply shape_set_cell).
  assert (Hs2 : shape n g2) by (by apply shape_set_cell).
  apply (grid_ext n); [by apply shape_set_cell..|].
  intros a b Ha Hb. unfold g1, g2.
  rewrite !(cell_at_set_cell n) by (done || lia).
  repeat match goal with
  | |- context [?u =? ?w] => destruct (Z.eqb_spec u w)
  end; simpl; subst; (done || lia).
Qed.

(** X16: two clicks give the same object in either order, whether they
    land on two cells, on the same cell or outside the grid. *)
Theorem clicks_commute (self : GameOfLife) (x1 y1 x2 y2 : Z) :
  shaped self -> cell_size self <> 0 ->
  (handle_grid_click x1 y1 ;;; handle_grid_click x2 y2) self
  = (handle_grid_click x2 y2 ;;; handle_grid_click x1 y1) self.
Proof.
  intros Hs Hcs.
  destruct (in_grid (grid_size self) (click_row self y1) (click_col self x1))
    eqn:Hin1;
  destruct (in_grid (grid_size self) (click_row self y2) (click_col self x2))
    eqn:Hin2.
  - pose proof (proj1 (in_grid_true _ _ _) Hin1) as [Hr1 Hc1].
    pose proof (proj1 (in_grid_true _ _ _) Hin2) as [Hr2 Hc2].
    rewrite (bind_ok _ _ _ _ _ (handle_grid_click_in self x1 y1 Hs Hcs Hin1)).
    rewrite (bind_ok _ _ _ _ _ (handle_grid_click_in self x2 y2 Hs Hcs Hin2)).
    rewrite !handle_grid_click_in by (done || by apply shape_set_cell).
    f_equal. f_equal. simpl.
    change (click_row (with_grid _ self)) with (click_row self).
    change (click_col (with_grid _ self)) with (click_col self).
    unfold with_grid. simpl. f_equal.
    by apply (set_cell_toggle_commute (grid_size self)).
  - rewrite (bind_ok _ _ _ _ _ (handle_grid_click_in self x1 y1 Hs Hcs Hin1)).
    rewrite (bind_ok _ _ _ _ _ (handle_grid_click_out self x2 y2 Hcs Hin2)).
    rewrite handle_grid_click_out by done.
    by rewrite handle_grid_click_in.
  - rewrite (bind_ok _ _ _ _ _ (handle_grid_click_out self x1 y1 Hcs Hin1)).
    rewrite (bind_ok _ _ _ _ _ (handle_grid_click_in self x2 y2 Hs Hcs Hin2)).
    rewrite handle_grid_click_in by done.
    by rewrite handle_grid_click_out.
  - rewrite (bind_ok _ _ _ _ _ (handle_grid_click_out self x1 y1 Hcs Hin1)).
    rewrite (bind_ok _ _ _ _ _ (handle_grid_click_out self x2 y2 Hcs Hin2)).
    by rewrite !handle_grid_click_out.
Qed.

(** ** Still life and extinction *)

Lemma block_still n r c :
  3 <= n -> 0 <= r <= n - 2 -> 0 <= c <= n - 2 ->
  next_generation n (block n r c) = block n r c.
Proof.
  intros Hn Hr Hc. unfold block.
  rewrite next_generation_tabulate by lia.
  apply tabulate_ext. intros i j Hi Hj.
  rewrite !wrap_pred, !wrap_succ by done. unfold rule.
  destruct (Z.eqb_spec i 0), (Z.eqb_spec i (n - 1)),
           (Z.eqb_spec j 0), (Z.eqb_spec j (n - 1)); try lia;
    split_tests; simpl; split_tests; done.
Qed.

Lemma single_dies_large n r c :
  3 <= n -> 0 <= r < n -> 0 <= c < n ->
  next_generation n (single n r c) = tabulate n (fun _ _ => DEAD).
Proof.
  intros Hn Hr Hc. unfold single.
  rewrite next_generation_tabulate by lia.
  apply tabulate_ext. intros i j Hi Hj.
  rewrite !wrap_pred, !wrap_succ by done. unfold rule, DEAD.
  destruct (Z.eqb_spec i 0), (Z.eqb_spec i (n - 1)),
           (Z.eqb_spec j 0), (Z.eqb_spec j (n - 1)); try lia;
    split_tests; simpl; split_tests; done.
Qed.

Lemma single_dies n r c :
  1 <= n -> 0 <= r < n -> 0 <= c < n ->
  next_generation n (single n r c) = tabulate n (fun _ _ => DEAD).
Proof.
  intros Hn Hr Hc.
  destruct (decide (n = 1)) as [->|H1].
  { assert (r = 0) as -> by lia. assert (c = 0) as -> by lia. done. }
  destruct (decide (n = 2)) as [->|H2].
  { assert (Hcases : (r = 0 ∨ r = 1) ∧ (c = 0 ∨ c = 1)) by lia.
    by destruct Hcases as [[-> | ->] [-> | ->]]. }
  apply single_dies_large; lia.
Qed.

(** X17: the block is a still life.  On a grid of size N >= 3, all DEAD
    but for the four cells of two adjacent rows and two adjacent
    columns, none of them across an edge, [apply_rules] returns the
    same grid and [update_grid] leaves the object as it is. *)
Theorem block_still_life (self : GameOfLife) (n r c : Z) :
  3 <= n -> 0 <= r <= n - 2 -> 0 <= c <= n - 2 ->
  grid_size self = n -> grid self = block n r c ->
  apply_rules self = Ok (block n r c, self) ∧
  update_grid self = Ok (tt, self).
Proof.
  intros Hn Hr Hc Hsize Hgrid.
  assert (Hs : shaped self).
  { unfold shaped. rewrite Hsize, Hgrid. apply shape_tabulate. lia. }
  split.
  - rewrite apply_rules_run by done. by rewrite Hsize, Hgrid, block_still.
  - rewrite update_grid_run by done. rewrite Hsize, Hgrid, block_still by done.
    rewrite <- Hgrid. by rewrite with_grid_same.
Qed.

(** X18: a lone cell dies and nothing is born.  On a grid of any size
    N >= 1 with exactly one cell ALIVE, [apply_rules] returns the grid
    of DEAD cells. *)
Theorem lone_cell_dies (self : GameOfLife) (n r c : Z) :
  1 <= n -> 0 <= r < n -> 0 <= c < n ->
  grid_size self = n -> grid self = single n r c ->
  apply_rules self
  = Ok (replicate (Z.to_nat n) (replicate (Z.to_nat n) DEAD), self).
Proof.
  intros Hn Hr Hc Hsize Hgrid.
  assert (Hs : shaped self).
  { unfold shaped. rewrite Hsize, Hgrid. apply shape_tabulate. lia. }
  rewrite apply_rules_run by done.
  by rewrite Hsize, Hgrid, single_dies, clear_grid_replicate.
Qed.

Lemma clear_grid_stays n :
  next_generation n (tabulate n (fun _ _ => DEAD)) = tabulate n (fun _ _ => DEAD).
Proof.
  destruct (decide (1 <= n)) as [Hn|Hn].
  - rewrite next_generation_tabulate by done. by apply tabulate_ext.
  - unfold next_generation, tabulate, py_range. by rewrite !seqZ_nil by lia.
Qed.

(** X19: the cleared grid is a fixed point.  After [end_simulation] a
    generation step changes nothing: ending and then stepping leaves
    the object as ending alone does, for any grid size. *)
Theorem end_then_step (self : GameOfLife) :
  (end_simulation ;;; update_grid) self = end_simulation self.
Proof.
  rewrite (bind_ok _ _ _ _ _ (end_simulation_run self)).
  rewrite end_simulation_run.
  destruct (decide (0 <= grid_size self)) as [Hn|Hn].
  - rewrite update_grid_run by (by apply shape_tabulate).
    simpl. by rewrite clear_grid_stays.
  - unfold update_grid, apply_rules, bind, gets, modify, tabulate, py_range.
    simpl. by rewrite !seqZ_nil by lia.
Qed.

(** * Instances of the further properties *)

Lemma toolbar_hit_map_witness :
  handle_mouse_click (200, 10) toolbar_game = end_simulation toolbar_game ∧
  handle_mouse_click (95, 10) toolbar_game = Ok (tt, toolbar_game).
Proof.
  split.
  - apply (toolbar_hit_map toolbar_game 200 10); [reflexivity|].
    unfold TOOLBAR_HEIGHT. lia.
  - apply (toolbar_hit_map toolbar_game 95 10); [reflexivity|].
    unfold TOOLBAR_HEIGHT. lia.
Defined.

Lemma click_area_witness :
  shaped glider_game ∧ 0 < cell_size glider_game ∧
  handle_grid_click 74 104 glider_game
  = Ok (tt, with_grid (set_cell (grid glider_game) 4 4 1) glider_game) ∧
  handle_grid_click 75 104 glider_game = Ok (tt, glider_game).
Proof.
  split; [compute_done|]. split; [simpl; lia|]. split.
  - apply (click_area glider_game 74 104); [compute_done|simpl; lia].
  - apply (click_area glider_game 75 104); [compute_done|simpl; lia].
Defined.

Lemma draw_grid_commands_witness :
  shaped unit_game ∧
  draw_grid unit_game
  = Ok ([ ScreenFill BLUE (mkRect 0 30 15 45);
          DrawRect WHITE (mkRect 1 31 14 14) 0;
          DrawRect WHITE (mkRect 1 31 14 14) 1 ], unit_game).
Proof.
  split; [compute_done|].
  apply (draw_grid_commands unit_game). compute_done.
Defined.

Lemma painted_squares_witness :
  shaped glider_game ∧ 0 < cell_size glider_game ∧
  exists cmds,
    draw_grid glider_game = Ok (cmds, glider_game) ∧
    DrawRect WHITE (cell_rect glider_game 0 1) 0 ∈ cmds.
Proof.
  split; [compute_done|]. split; [simpl; lia|].
  destruct (painted_squares glider_game) as (cmds & Hrun & Halive & _).
  - compute_done.
  - simpl; lia.
  - exists cmds. split; [exact Hrun|].
    apply Halive; [simpl; lia|simpl; lia|reflexivity].
Defined.

Lemma run_keeps_config_witness :
  well_formed toolbar_game ∧ clickable toolbar_game ∧
  exists self',
    run [ [MOUSEBUTTONDOWN (200, 10)]; [QUIT] ] toolbar_game = Ok (tt, self') ∧
    same_config toolbar_game self' ∧ window_alive self' = false.
Proof.
  split; [compute_done|]. split; [unfold clickable; simpl; lia|].
  apply (proj2 (run_keeps_config [ [MOUSEBUTTONDOWN (200, 10)]; [QUIT] ]
                  toolbar_game)).
  - compute_done.
  - unfold clickable. simpl. lia.
  - exists [QUIT]. split.
    + apply elem_of_cons. right. apply elem_of_cons. left. reflexivity.
    + apply elem_of_cons. left. reflexivity.
Defined.


Lemma idle_frames_witness :
  shaped blinker_game ∧
  run (replicate 2 []) (with_is_running true blinker_game)
  = Ok (tt, with_grid
              (Nat.iter 2 (next_generation 6) (grid blinker_game))
              (with_is_running true blinker_game)).
Proof.
  split; [compute_done|].
  apply (idle_frames 2 (with_is_running true blinker_game)).
  - compute_done.
  - reflexivity.
Defined.

Lemma apply_rules_shift_witness :
  shaped glider_game ∧
  exists new_grid,
    apply_rules glider_game = Ok (new_grid, glider_game) ∧
    apply_rules (with_grid (shift 5 (grid glider_game) 2 (-1)) glider_game)
    = Ok (shift 5 new_grid 2 (-1),
          with_grid (shift 5 (grid glider_game) 2 (-1)) glider_game).
Proof.
  split; [compute_done|].
  apply (apply_rules_shift glider_game 2 (-1)).
  - compute_done.
  - simpl; lia.
Defined.

Lemma apply_rules_transpose_witness :
  shaped glider_game ∧
  exists new_grid,
    apply_rules glider_game = Ok (new_grid, glider_game) ∧
    apply_rules (with_grid (transpose 5 (grid glider_game)) glider_game)
    = Ok (transpose 5 new_grid,
          with_grid (transpose 5 (grid glider_game)) glider_game).
Proof.
  split; [compute_done|].
  apply (apply_rules_transpose glider_game).
  - compute_done.
  - simpl; lia.
Defined.

Lemma toggle_neighbor_counts_witness :
  shaped glider_game ∧
  exists self' k k',
    handle_grid_click 20 50 glider_game = Ok (tt, self') ∧
    count_neighbors 0 0 glider_game = Ok (k, glider_game) ∧
    count_neighbors 0 0 self' = Ok (k', self') ∧
    k' = k + 1.
Proof.
  split; [compute_done|].
  destruct (toggle_neighbor_counts glider_game 20 50 0 0)
    as (self' & k & k' & H1 & H2 & H3 & H4).
  - compute_done.
  - simpl; lia.
  - reflexivity.
  - exists self', k, k'. split; [exact H1|]. split; [exact H2|].
    split; [exact H3|]. exact H4.
Defined.

Lemma wraparound_count_witness :
  shaped glider_game ∧
  exists self',
    handle_grid_click 50 35 glider_game = Ok (tt, self') ∧
    exists k, count_neighbors 4 3 glider_game = Ok (k, glider_game) ∧
              count_neighbors 4 3 self' = Ok (k + 1, self').
Proof.
  split; [compute_done|].
  pose proof (wraparound_count glider_game 50 35) as H. cbv zeta in H.
  destruct H as (self' & H1 & Hrow & _).
  - compute_done.
  - simpl; lia.
  - simpl; lia.
  - reflexivity.
  - exists self'. split; [exact H1|]. apply Hrow. reflexivity.
Defined.

Lemma nonpositive_size_witness :
  apply_rules empty_game = Ok ([], empty_game) ∧
  handle_grid_click 20 50 empty_game = Ok (tt, empty_game) ∧
  count_neighbors 0 0 empty_game = Raise ZeroDivisionError.
Proof.
  destruct (nonpositive_size empty_game) as (H1 & _ & H3 & H4).
  - simpl; lia.
  - split; [exact H1|]. split.
    + apply H3. simpl; lia.
    + apply H4. reflexivity.
Defined.

Lemma one_by_one_witness :
  count_neighbors 0 0 unit_game = Ok (8, unit_game) ∧
  apply_rules unit_game = Ok ([[0]], unit_game).
Proof.
  destruct (one_by_one unit_game 1) as [H1 H2]; [reflexivity|reflexivity|].
  split; [exact H1|]. apply H2. right. reflexivity.
Defined.

Lemma two_by_two_witness :
  count_neighbors 0 0 diagonal_game = Ok (4, diagonal_game) ∧
  exists new_grid,
    apply_rules diagonal_game = Ok (new_grid, diagonal_game) ∧
    cell_at new_grid 0 1 = DEAD.
Proof.
  destruct (two_by_two diagonal_game 1 0 0 1)
    as (H1 & g & H2 & H3); [reflexivity|reflexivity|].
  split; [exact H1|]. exists g. split; [exact H2|].
  apply H3; [lia|lia|reflexivity].
Defined.

Lemma clicks_commute_witness :
  shaped glider_game ∧ cell_size glider_game <> 0 ∧
  (handle_grid_click 20 50 ;;; handle_grid_click 40 35) glider_game
  = (handle_grid_click 40 35 ;;; handle_grid_click 20 50) glider_game.
Proof.
  split; [compute_done|]. split; [simpl; lia|].
  apply (clicks_commute glider_game 20 50 40 35).
  - compute_done.
  - simpl; lia.
Defined.

Lemma block_still_life_witness :
  apply_rules block_game = Ok (block 4 1 1, block_game) ∧
  update_grid block_game = Ok (tt, block_game).
Proof.
  apply (block_still_life block_game 4 1 1); (lia || reflexivity).
Defined.

Lemma lone_cell_dies_witness :
  apply_rules single_game
  = Ok (replicate (Z.to_nat 4) (replicate (Z.to_nat 4) DEAD), single_game).
Proof.
  apply (lone_cell_dies single_game 4 0 3); (lia || reflexivity).
Defined.

(** X20: the window the constructor opens is covered by cells.  An
    object the constructor returns for a grid size and a cell size of
    at least 1 has [width = N * cell_size] and
    [height = N * cell_size + 30], and every pixel of its window below
    the toolbar, [0 <= x < width] and [30 <= y < height], is routed by
    [handle_mouse_click] to a cell of the grid, which it toggles. *)
Theorem constructed_window_covered (gs cs x y : Z) (self : GameOfLife) :
  1 <= gs -> 1 <= cs -> init gs cs = Ok self ->
  width self = gs * cs ∧ height self = gs * cs + TOOLBAR_HEIGHT ∧
  (0 <= x < width self -> TOOLBAR_HEIGHT <= y < height self ->
   in_grid gs (click_row self y) (click_col self x) = true ∧
   handle_mouse_click (x, y) self
   = Ok (tt, with_grid (set_cell (grid self) (click_row self y)
                          (click_col self x) 1) self)).
Proof.
  intros Hgs Hcs Hinit. rewrite (init_returns gs cs self Hinit).
  set (game := mkGame _ _ _ _ _ _ _ _).
  split; [done|]. split; [done|]. simpl. intros Hx Hy.
  assert (Hs : shaped game) by (apply shape_tabulate; lia).
  assert (Hin : in_grid gs (click_row game y) (click_col game x) = true).
  { apply in_grid_true. unfold click_row, click_col. simpl.
    split; apply div_in_range; lia. }
  split; [done|].
  unfold handle_mouse_click. destruct (Z.ltb_spec y TOOLBAR_HEIGHT); [lia|].
  rewrite handle_grid_click_in by (done || (simpl; lia)).
  do 3 f_equal. apply in_grid_true in Hin as [Hr Hc].
  change (grid game) with (tabulate gs (fun _ _ => DEAD)).
  rewrite cell_at_tabulate by done. done.
Qed.

Lemma constructed_window_covered_witness :
  exists self,
    init 3 10 = Ok self ∧
    handle_mouse_click (29, 59) self
    = Ok (tt, with_grid [ [0; 0; 0]; [0; 0; 0]; [0; 0; 1] ] self).
Proof.
  eexists. split; [reflexivity|].
  destruct (constructed_window_covered 3 10 29 59 _ ltac:(lia) ltac:(lia)
              eq_refl) as (H2 & H3 & H4).
  destruct H4 as [_ H4].
  - simpl. lia.
  - simpl. unfold TOOLBAR_HEIGHT. lia.
  - exact H4.
Defined.
